(** * Screenly OSE: the asset catalog API of [server.py]

    A shallow embedding of the request handlers of [server.py]
    ([prepare_asset], [Assets.post], [Asset.delete], [FileAsset.post],
    [Recover.post], [AssetsControl.get]) over an explicit model of the
    state they touch: the file system, the catalog table and the
    publisher to the viewer.

    Conventions.
    - A Python text string is a [string]: a sequence of code points
      below 256.  File contents are [list Byte.byte].
    - A value decoded from the JSON body is a [value]: null, a boolean, an
      integer or a string (floats, arrays and objects are left out).
    - A handler is a function from the state to the new state and a
      [result]: what it returns, or the exception it raises.
    - Functions that [server.py] imports ([lib.utils], [dateutil],
      [mimetypes], [lib.backup_helper]) and [settings['assetdir']] are
      Section variables; the catalog helpers of [lib.assets_helper] and
      the publisher of [settings] are modelled from the specification. *)

From Stdlib Require Import ZArith Lia Ascii Bool.
From stdpp Require Import base option strings gmap list.

Local Open Scope Z_scope.

(** ** Python primitives *)

Module Py.

(** Exceptions the handlers can raise.  [Exception msg] is the
    [raise Exception(msg)] of [server.py]; [NotFoundError] is the
    failure of a lookup in the catalog; the others are raised by the
    built-ins. *)
Inductive exn :=
| Exception (msg : string)
| ValueError
| TypeError
| AttributeError
| IndexError
| KeyError
| IOError
| OSError
| OverflowError
| NotFoundError.

Inductive result (A : Type) :=
| Ok (a : A)
| Raise (e : exn).
Arguments Ok {A} a.
Arguments Raise {A} e.


Definition bind {A B} (r : result A) (k : A -> result B) : result B :=
  match r with Ok a => k a | Raise e => Raise e end.

(** [unicode.isspace] on the code points below 256. *)
Definition isspace (c : ascii) : bool :=
  let n := nat_of_ascii c in
  ((9 <=? n) && (n <=? 13) || (28 <=? n) && (n <=? 32)
   || (n =? 133) || (n =? 160))%nat.

Fixpoint lstrip (s : string) : string :=
  match s with
  | EmptyString => EmptyString
  | String c s' => if isspace c then lstrip s' else s
  end.

Fixpoint rstrip (s : string) : string :=
  match s with
  | EmptyString => EmptyString
  | String c s' =>
      match rstrip s' with
      | EmptyString => if isspace c then EmptyString else String c EmptyString
      | r => String c r
      end
  end.

(** [s.strip()] *)
Definition strip (s : string) : string := rstrip (lstrip s).

(** [s.startswith(p)] *)
Fixpoint startswith (s p : string) : bool :=
  match p, s with
  | EmptyString, _ => true
  | String _ _, EmptyString => false
  | String a p', String b s' => Ascii.eqb a b && startswith s' p'
  end.

(** [sub in s] *)
Fixpoint contains (sub s : string) : bool :=
  startswith s sub ||
  match s with
  | EmptyString => false
  | String _ s' => contains sub s'
  end.

(** [s.split(sep)] for a separator of one character. *)
Fixpoint split (sep : ascii) (s : string) : list string :=
  match s with
  | EmptyString => [EmptyString]
  | String c s' =>
      if Ascii.eqb c sep then EmptyString :: split sep s'
      else match split sep s' with
           | w :: ws => String c w :: ws
           | [] => [String c EmptyString]
           end
  end.

(** [l[i]] *)
Definition index {A} (l : list A) (i : nat) : result A :=
  match l !! i with Some x => Ok x | None => Raise IndexError end.

Definition digit (c : ascii) : option Z :=
  let n := nat_of_ascii c in
  if ((48 <=? n) && (n <=? 57))%nat then Some (Z.of_nat n - 48) else None.

Fixpoint digits (acc : Z) (s : string) : option Z :=
  match s with
  | EmptyString => Some acc
  | String c s' =>
      match digit c with
      | Some d => digits (10 * acc + d) s'
      | None => None
      end
  end.

Definition unsigned_literal (s : string) : option Z :=
  match s with
  | EmptyString => None
  | _ => digits 0 s
  end.

(** [int(s)] for a string: surrounding whitespace, an optional sign and
    at least one decimal digit. *)
Definition int_of_string (s : string) : result Z :=
  let r :=
    match strip s with
    | String "-" t => Z.opp <$> unsigned_literal t
    | String "+" t => unsigned_literal t
    | t => unsigned_literal t
    end in
  match r with Some n => Ok n | None => Raise ValueError end.

(** A value of the decoded JSON body. *)
Inductive value :=
| VNone
| VBool (b : bool)
| VInt (n : Z)
| VStr (s : string).

#[export] Instance value_eq_dec : EqDecision value.
Proof. solve_decision. Defined.

(** Truth value: [bool(v)]. *)
Definition truthy (v : value) : bool :=
  match v with
  | VNone => false
  | VBool b => b
  | VInt n => negb (n =? 0)
  | VStr s => negb (String.eqb s "")
  end.

(** [int(v)] *)
Definition int (v : value) : result Z :=
  match v with
  | VNone => Raise TypeError
  | VBool b => Ok (if b then 1 else 0)
  | VInt n => Ok n
  | VStr s => int_of_string s
  end.

(** [v == s] for a string constant [s]. *)
Definition eq_str (v : value) (s : string) : bool :=
  match v with VStr t => String.eqb t s | _ => false end.

End Py.

Import Py.

(** ** posixpath, uuid *)

Module posixpath.

Fixpoint endswith_slash (s : string) : bool :=
  match s with
  | EmptyString => false
  | String c EmptyString => Ascii.eqb c "/"
  | String _ s' => endswith_slash s'
  end.

(** [path.join(a, b)] *)
Definition join (a b : string) : string :=
  if startswith b "/" then b
  else if String.eqb a "" || endswith_slash a then a +:+ b
  else a +:+ "/" +:+ b.

(** One name of a path, on the names reached so far (the last one
    first): an empty name and [.] stay in place, [..] goes back up and
    stays at the root; a relative path keeps the [..] that lead out of
    the working directory. *)
Definition step (absolute : bool) (stack : list string) (name : string)
    : list string :=
  if String.eqb name "" || String.eqb name "." then stack
  else if String.eqb name ".." then
    match stack with
    | [] => if absolute then [] else [".."]
    | top :: rest => if String.eqb top ".." then ".." :: stack else rest
    end
  else name :: stack.

(** Where a path leads when no name on it is a symbolic link (the files
    of the model are regular files): whether it starts at the root, and
    the names from there, or from the working directory, to the file. *)
Definition resolve (p : string) : bool * list string :=
  let absolute := startswith p "/" in
  (absolute, List.rev (List.fold_left (step absolute) (split "/" p) [])).

(** The names [q] go on from the names [d], by one name at least, and
    do not leave again. *)
Fixpoint below (d q : list string) : bool :=
  match d, q with
  | [], n :: extra => List.forallb (fun x => negb (String.eqb x "..")) (n :: extra)
  | x :: d', y :: q' => String.eqb x y && below d' q'
  | _, _ => false
  end.

(** A path lies under the directory [dir]: resolved, it leads through
    [dir] to a file below it.  Two spellings of one path count alike,
    and a path that leaves [dir] through [..] is not under it.  A
    relative and an absolute path are not compared. *)
Definition inside (dir p : string) : bool :=
  Bool.eqb (resolve dir).1 (resolve p).1 && below (resolve dir).2 (resolve p).2.

End posixpath.

Module uuid.

Definition hex_digit (n : Z) : ascii :=
  ascii_of_nat (Z.to_nat (if n <? 10 then 48 + n else 87 + n)).

(** The [w] low hexadecimal digits of [n], most significant first. *)
Fixpoint hex_fixed (w : nat) (n : Z) : string :=
  match w with
  | O => EmptyString
  | S w' => hex_fixed w' (n / 16) +:+ String (hex_digit (n mod 16)) EmptyString
  end.

(** [UUID.hex], that is ['%032x' % self.int], for the 128-bit [int] of
    a UUID. *)
Definition hex (int : Z) : string := hex_fixed 32 int.
Arguments hex : simpl never.




Fixpoint all_chars (P : ascii -> bool) (s : string) : bool :=
  match s with
  | EmptyString => true
  | String c s' => P c && all_chars P s'
  end.

End uuid.

(** ** Data model *)

Abbreviation bytes := (list Byte.byte).

(** The regular files of the host, by path. *)
Abbreviation filesystem := (gmap string bytes).

(** A [datetime]: the wall-clock reading (microseconds from a fixed
    origin of the calendar) and the [tzinfo], an offset in minutes, that
    an aware value carries.  Naive values compare by their reading. *)
Record datetime := { wall : Z; tzinfo : option Z }.

(** [d.replace(tzinfo=None)] keeps the reading and drops the zone. *)
Definition replace_tzinfo_None (d : datetime) : datetime :=
  {| wall := wall d; tzinfo := None |}.

(** The [start_date] / [end_date] entry of an asset: the empty string
    that [prepare_asset] stores for no bound, or a datetime. *)
Inductive date_field :=
| NoBound
| Date (d : datetime).

(** The asset dictionary.  [duration] is [None] while the key is not set. *)
Record asset := {
  name : value;
  mimetype : string;
  asset_id : value;
  is_enabled : value;
  is_processing : value;
  nocache : value;
  uri : string;
  duration : option Z;
  start_date : date_field;
  end_date : date_field
}.

(** A werkzeug [FileStorage]: an uploaded file with the name and the
    content type the client declared for it. *)
Record FileStorage := {
  filename : string;
  content_type : string;
  stream : bytes
}.

(** What a handler hands back to the framework. *)
Inductive body :=
| Text (s : string)
| Json (a : asset)
| Error (e : exn).

Record response := { payload : body; status : Z }.

(** The [api_response] decorator: an exception becomes
    [api_error(unicode(e))], a response with status 500. *)
Definition api_response (r : result response) : response :=
  match r with
  | Ok v => v
  | Raise e => {| payload := Error e; status := 500 |}
  end.

(** ** The file system *)

Module os.

(** [path.isfile(p)] *)
Definition isfile (fs : filesystem) (p : string) : bool :=
  bool_decide (is_Some (fs !! p)).

(** [rename(src, dst)] *)
Definition rename (src dst : string) (fs : filesystem) : result filesystem :=
  match fs !! src with
  | Some c => Ok (<[dst := c]> (delete src fs))
  | None => Raise OSError
  end.

(** [remove(p)] *)
Definition remove (p : string) (fs : filesystem) : result filesystem :=
  match fs !! p with
  | Some _ => Ok (delete p fs)
  | None => Raise OSError
  end.

(** A file object opened with [open(p, 'a')].  The mode is that of
    [fopen], which opens the descriptor with [O_APPEND]: every write lands
    at the end of the file, whatever position [seek] has set (as the
    documentation of [open] says of ['a']). *)
Record file := { path : string; pos : Z }.

(** [open(p, 'a')] creates the file when it does not exist. *)
Definition open_a (p : string) (fs : filesystem) : filesystem * file :=
  (<[p := default [] (fs !! p)]> fs, {| path := p; pos := 0 |}).

(** The largest offset an [off_t] of 64 bits holds. *)
Definition OFF_T_MAX : Z := 2 ^ 63 - 1.

(** The offsets [f.seek] accepts on a file system whose largest file
    offset is [limit]. *)
Definition seekable (limit k : Z) : bool :=
  (0 <=? k) && (k <=? limit) && (k <=? OFF_T_MAX).

(** [f.seek(k)].  A number that no [off_t] holds is refused when it is
    converted (OverflowError); a negative offset, or one beyond the
    largest offset [limit] of the file system, is refused by the host
    (IOError, [EINVAL]). *)
Definition seek (limit : Z) (f : file) (k : Z) : result file :=
  if (k <? - 2 ^ 63) || (OFF_T_MAX <? k) then Raise OverflowError
  else if (k <? 0) || (limit <? k) then Raise IOError
  else Ok {| path := path f; pos := k |}.

(** [f.write(data)] on a file opened for appending. *)
Definition write_a (f : file) (data : bytes) (fs : filesystem) : filesystem :=
  <[path f := default [] (fs !! path f) ++ data]> fs.

(** [FileStorage.save(dst)]: the destination is opened with ['wb'] and
    receives the stream. *)
Definition save (up : FileStorage) (dst : string) (fs : filesystem) : filesystem :=
  <[dst := stream up]> fs.

End os.

(** Computations on the file system that may raise: the state after the
    last completed step is kept when an exception stops them. *)
Definition io (A : Type) : Type := filesystem -> filesystem * result A.

Definition ret {A} (a : A) : io A := fun fs => (fs, Ok a).
Definition raise {A} (e : exn) : io A := fun fs => (fs, Raise e).
Definition lift {A} (r : result A) : io A := fun fs => (fs, r).
Definition io_bind {A B} (c : io A) (k : A -> io B) : io B :=
  fun fs => match c fs with
            | (fs', Ok a) => k a fs'
            | (fs', Raise e) => (fs', Raise e)
            end.

Notation "x <- c ;; k" := (io_bind c (fun x => k))
  (at level 100, c at next level, right associativity).

(** ** The catalog *)

Module assets_helper.

Definition has_id (id : string) (a : asset) : bool :=
  bool_decide (asset_id a = VStr id).

(** Modelled from the spec: [assets_helper.create] of [lib/] is not
    among the sources.  "validates and persists the record": the record
    joins the catalog table. *)
Definition create (db : list asset) (a : asset) : list asset := db ++ [a].

(** Modelled from the spec: [assets_helper.read] of [lib/] is not among
    the sources.  "get(asset_id) -> Asset — fails with NotFound if
    absent". *)
Definition read (db : list asset) (id : string) : result asset :=
  match List.find (has_id id) db with
  | Some a => Ok a
  | None => Raise NotFoundError
  end.

(** Modelled from the spec: [assets_helper.delete] of [lib/] is not
    among the sources.  "removes the record". *)
Definition delete (db : list asset) (id : string) : list asset :=
  List.filter (fun a => negb (has_id id a)) db.

(** Modelled from the spec: [assets_helper.is_active] of [lib/] is not
    among the sources.  "is_active = is_enabled AND (no window set OR
    now is within [start_date, end_date])", both ends included.  A
    record with only one of the two dates, which the data model
    excludes, has a window that is neither unset nor an interval, and
    is inactive. *)
Definition is_active (a : asset) (now : Z) : bool :=
  truthy (is_enabled a) &&
  match start_date a, end_date a with
  | NoBound, NoBound => true
  | Date s, Date e => (wall s <=? now) && (now <=? wall e)
  | _, _ => false
  end.

Definition no_window (a : asset) : Prop :=
  start_date a = NoBound /\ end_date a = NoBound.

Definition within_window (a : asset) (now : Z) : Prop :=
  exists s e, start_date a = Date s /\ end_date a = Date e /\
              wall s <= now <= wall e.

End assets_helper.

(** ** The publisher to the viewer *)

Module ZmqPublisher.

(** The channel to the rendering process, with the commands handed to
    it so far. *)
Record channel := { chan_id : nat; sent : list string }.

(** The class attribute [INSTANCE] and the number of channels
    constructed since the process started. *)
Record state := { INSTANCE : option channel; constructed : nat }.

(** Modelled from the spec: [ZmqPublisher] of [settings] is not among
    the sources.  "Accessing the publisher always returns the same
    underlying channel instance for the lifetime of the serving
    process". *)
Definition get_instance (st : state) : state * channel :=
  match INSTANCE st with
  | Some c => (st, c)
  | None =>
      let c := {| chan_id := constructed st; sent := [] |} in
      ({| INSTANCE := Some c; constructed := S (constructed st) |}, c)
  end.

(** Modelled from the spec: "send(command) — fire-and-forget; no
    acknowledgement, no delivery guarantee, no retry [...] if the
    renderer is not listening, the message is silently lost".  The
    command is handed to the channel and nothing comes back, whether the
    viewer is [listening] or not; the viewer receives it only if it is. *)
Definition send_to_viewer (listening : bool) (c : channel) (msg : string)
    (st : state) (viewer : list string) : state * list string :=
  ({| INSTANCE := Some {| chan_id := chan_id c; sent := sent c ++ [msg] |};
      constructed := constructed st |},
   if listening then viewer ++ [msg] else viewer).

End ZmqPublisher.

(** ** A sample installation

    Concrete stand-ins for the functions that [server.py] imports, used
    to run the handlers on examples. *)

Module mimetypes.

Fixpoint split_last (sep : ascii) (s : string) : option (string * string) :=
  match s with
  | EmptyString => None
  | String c s' =>
      match split_last sep s' with
      | Some (a, b) => Some (String c a, b)
      | None => if Ascii.eqb c sep then Some (EmptyString, s) else None
      end
  end.

(** [posixpath.splitext]: the extension starts at the last dot of the
    last component, leading dots aside. *)
Definition splitext (p : string) : string * string :=
  let '(dir, base) :=
    match split_last "/" p with
    | Some (d, String _ b) => (d +:+ "/", b)
    | _ => (EmptyString, p)
    end in
  match split_last "." base with
  | Some (root, ext) =>
      if uuid.all_chars (fun c => Ascii.eqb c ".") root then (p, EmptyString)
      else (dir +:+ root, ext)
  | None => (p, EmptyString)
  end.

Definition suffix_map (ext : string) : option string :=
  if String.eqb ext ".tgz" || String.eqb ext ".taz" || String.eqb ext ".tz"
  then Some ".tar.gz"
  else if String.eqb ext ".tbz2" then Some ".tar.bz2"
  else if String.eqb ext ".txz" then Some ".tar.xz"
  else None.

Definition encodings_map (ext : string) : bool :=
  String.eqb ext ".gz" || String.eqb ext ".Z" || String.eqb ext ".bz2"
  || String.eqb ext ".xz".

(** A few rows of [types_map]. *)
Definition types_map (ext : string) : option string :=
  if String.eqb ext ".tar" then Some "application/x-tar"
  else if String.eqb ext ".png" then Some "image/png"
  else if String.eqb ext ".mp4" then Some "video/mp4"
  else if String.eqb ext ".txt" then Some "text/plain"
  else None.

Definition lower_char (c : ascii) : ascii :=
  let n := nat_of_ascii c in
  if ((65 <=? n) && (n <=? 90))%nat then ascii_of_nat (n + 32) else c.

Fixpoint lower (s : string) : string :=
  match s with
  | EmptyString => EmptyString
  | String c s' => String (lower_char c) (lower s')
  end.

(** [guess_type(name)[0]] for a file name without a URL scheme. *)
Definition guess_type (name : string) : option string :=
  let '(base, ext) := splitext name in
  let '(base, ext) :=
    match suffix_map ext with
    | Some long => splitext (base +:+ long)
    | None => (base, ext)
    end in
  let ext := if encodings_map ext then (splitext base).2 else ext in
  match types_map ext with
  | Some t => Some t
  | None => types_map (lower ext)
  end.

End mimetypes.

Module Sample.

Definition assetdir : string := "/home/pi/screenly_assets".

Definition validate_url (s : string) : bool :=
  startswith s "http://" || startswith s "https://".

Definition url_fails (s : string) : bool :=
  String.eqb s "http://unreachable.example/".

Definition download_video_from_youtube (uri : string) (id : value)
    : result (string * value * Z) := Raise IOError.

(** Every file probes as a clip of 12.5 seconds. *)
Definition get_video_duration (fs : filesystem) (uri : string) : result Z :=
  if os.isfile fs uri then Ok 12500000 else Raise (Exception "Bad video format").

(** Two timestamps it can read: the first of February 2017, 00:33 UTC,
    and the first of March 2017, 00:33 at UTC+2. *)
Definition date_parse (v : value) : result datetime :=
  match v with
  | VStr s =>
      if String.eqb s "2017-02-02T00:33:00.000Z"
      then Ok {| wall := 1485995580000000; tzinfo := Some 0 |}
      else if String.eqb s "2017-03-01T00:33:00+02:00"
      then Ok {| wall := 1488328380000000; tzinfo := Some 120 |}
      else Raise ValueError
  | _ => Raise TypeError
  end.

(** An extraction that finds no archive and gives up. *)
Definition backup_recover (location : string) (st : filesystem * list asset)
    : (filesystem * list asset) * result unit :=
  (st, Raise IOError).

Definition clip : bytes := String.list_byte_of_string "RIFFclip".

(** The JSON of the API documentation. *)
Definition website : gmap string value :=
  {[ "name" := VStr "Website"; "mimetype" := VStr "webpage";
     "uri" := VStr "http://example.com"; "duration" := VStr "10";
     "start_date" := VStr "2017-02-02T00:33:00.000Z";
     "end_date" := VStr "2017-03-01T00:33:00+02:00";
     "is_enabled" := VInt 0; "is_processing" := VInt 0;
     "nocache" := VInt 0; "play_order" := VInt 0 ]}.

(** A video uploaded to [/tmp/clip.mp4], of unknown duration. *)
Definition video (dur : option value) : gmap string value :=
  let base : gmap string value :=
    {[ "name" := VStr "Clip"; "mimetype" := VStr "video";
       "uri" := VStr "/tmp/clip.mp4" ]} in
  match dur with Some d => <["duration" := d]> base | None => base end.

Definition disk : filesystem := {[ "/tmp/clip.mp4" := clip ]}.

Definition uuid4 : Z := 0x793406aa1fd34b85aa82614004c0e63a.

(** What the handlers make of the sample requests. *)
Definition website_asset : asset :=
  {| name := VStr "Website"; mimetype := "webpage";
     asset_id := VStr "793406aa1fd34b85aa82614004c0e63a";
     is_enabled := VInt 0; is_processing := VInt 0; nocache := VInt 0;
     uri := "http://example.com"; duration := Some 10;
     start_date := Date {| wall := 1485995580000000; tzinfo := None |};
     end_date := Date {| wall := 1488328380000000; tzinfo := None |} |}.

Definition managed : string :=
  "/home/pi/screenly_assets/793406aa1fd34b85aa82614004c0e63a".

Definition clip_asset : asset :=
  {| name := VStr "Clip"; mimetype := "video";
     asset_id := VStr "793406aa1fd34b85aa82614004c0e63a";
     is_enabled := VStr ""; is_processing := VStr ""; nocache := VStr "";
     uri := managed; duration := Some 12;
     start_date := NoBound; end_date := NoBound |}.

Definition disk_after : filesystem := {[ managed := clip ]}.

(** Two chunks of one upload, and the header of the second. *)
Definition chunk_a : FileStorage :=
  {| filename := "clip.mp4"; content_type := "video/mp4";
     stream := String.list_byte_of_string "ab" |}.
Definition chunk_b : FileStorage :=
  {| filename := "clip.mp4"; content_type := "video/mp4";
     stream := String.list_byte_of_string "cd" |}.
Definition absolute_name : FileStorage :=
  {| filename := "/tmp/clip.mp4"; content_type := "video/mp4";
     stream := String.list_byte_of_string "ab" |}.
Definition range_b : string := "bytes 2-3/4".
Definition tmp_path : string := "/home/pi/screenly_assets/clip.mp4.tmp".

(** Uploads for a recovery: a zip archive, and a file named as a tar
    archive that the client declares as plain text. *)
Definition zip_upload : FileStorage :=
  {| filename := "backup.zip"; content_type := "application/zip";
     stream := String.list_byte_of_string "PK" |}.
Definition text_named_tar : FileStorage :=
  {| filename := "backup.tar"; content_type := "text/plain";
     stream := String.list_byte_of_string "hello" |}.

(** The record of a video request whose duration is neither 'N/A' nor
    zero: the key [duration] is not set. *)
Definition clip_asset_unset : asset :=
  {| name := VStr "Clip"; mimetype := "video";
     asset_id := VStr "793406aa1fd34b85aa82614004c0e63a";
     is_enabled := VStr ""; is_processing := VStr ""; nocache := VStr "";
     uri := managed; duration := None;
     start_date := NoBound; end_date := NoBound |}.

(** A picture kept in a directory next to the asset directory, the
    request that adds it under an id of the client's, and its record. *)
Definition sibling : string := "/home/pi/screenly_assets_old/a.png".
Definition sibling_request : gmap string value :=
  {[ "asset_id" := VStr "1c5cfa719d1f4a9abae16c983a18903b";
     "name" := VStr "Old picture"; "mimetype" := VStr "image";
     "uri" := VStr sibling; "duration" := VStr "10";
     "is_enabled" := VInt 1 ]}.
Definition sibling_asset : asset :=
  {| name := VStr "Old picture"; mimetype := "image";
     asset_id := VStr "1c5cfa719d1f4a9abae16c983a18903b";
     is_enabled := VInt 1; is_processing := VStr ""; nocache := VStr "";
     uri := sibling; duration := Some 10;
     start_date := NoBound; end_date := NoBound |}.

(** A YouTube reference, and a downloader that keeps the video under the
    id it is given and reports the title and the length of the video. *)
Definition tube (uri : string) (id : value) : result (string * value * Z) :=
  match id with
  | VStr s => Ok ("/home/pi/screenly_assets/" +:+ s, VStr "Big Buck Bunny", 596)
  | _ => Raise TypeError
  end.
Definition youtube : gmap string value :=
  {[ "name" := VStr "Bunny"; "mimetype" := VStr "youtube_asset";
     "uri" := VStr "https://www.youtube.com/watch?v=aqz-KE-bpKQ";
     "duration" := VStr "5" ]}.
Definition youtube_record : asset :=
  {| name := VStr "Big Buck Bunny"; mimetype := "video";
     asset_id := VStr "793406aa1fd34b85aa82614004c0e63a";
     is_enabled := VStr ""; is_processing := VInt 1; nocache := VStr "";
     uri := managed; duration := Some 596;
     start_date := NoBound; end_date := NoBound |}.

(** A picture uploaded to [/tmp/clip.mp4] with a duration that is no
    number. *)
Definition picture : gmap string value :=
  <["mimetype" := VStr "image"]> (video (Some (VStr "soon"))).

(** A player that has been set up, with its flag file. *)
Definition HOME : option string := Some "/home/pi".
Definition initialized : filesystem :=
  {[ "/home/pi/.screenly/initialized" := [];
     "/home/pi/.screenly/latest_screenly_sha" :=
       String.list_byte_of_string "5f2b1c9" ]}.

(** Settings of a player, the form of its settings page as it is sent
    with the splash screen unchecked, and a form whose passwords
    differ. *)
Definition CONFIGURABLE_SETTINGS : list (string * value) :=
  [("show_splash", VBool true); ("default_duration", VStr "10");
   ("user", VStr ""); ("password", VStr "")].
Definition viewer_defaults : list (string * value) :=
  [("show_splash", VBool true); ("default_duration", VStr "10")].
Definition settings_save (c : gmap string value) : result unit := Ok tt.
Definition settings_load (c : gmap string value) : result (gmap string value) :=
  Ok c.
Definition settings : gmap string value :=
  {[ "show_splash" := VBool true; "default_duration" := VStr "10";
     "user" := VStr ""; "password" := VStr "";
     "assetdir" := VStr "/home/pi/screenly_assets" ]}.
Definition saved_settings : gmap string value :=
  {[ "show_splash" := VBool false; "default_duration" := VStr "15";
     "user" := VStr ""; "password" := VStr "";
     "assetdir" := VStr "/home/pi/screenly_assets" ]}.
Definition form : gmap string string :=
  {[ "default_duration" := "15"; "user" := ""; "password" := "";
     "password2" := "" ]}.
Definition form_mismatch : gmap string string :=
  {[ "show_splash" := "on"; "default_duration" := "15"; "user" := "pi";
     "password" := "secret"; "password2" := "secrte" ]}.
Definition publisher : ZmqPublisher.state :=
  {| ZmqPublisher.INSTANCE := None; ZmqPublisher.constructed := 0 |}.


(** The largest file offset of the file system that holds the asset
    directory: 16 TiB less a block, as on ext4 with blocks of 4 KiB. *)
Definition max_offset : Z := 2 ^ 44 - 4096.

(** An upload whose file name climbs out of the asset directory. *)
Definition climbing_name : FileStorage :=
  {| filename := "../../../etc/cron.d/evil"; content_type := "text/plain";
     stream := String.list_byte_of_string "* * * * * root id" |}.

(** The record of the old picture with another uri: one that spells a
    path of the asset directory with a doubled slash, and one that
    begins with the asset directory's path and climbs out of it. *)
Definition picture_at (p : string) : asset :=
  {| name := VStr "Old picture"; mimetype := "image";
     asset_id := VStr "1c5cfa719d1f4a9abae16c983a18903b";
     is_enabled := VInt 1; is_processing := VStr ""; nocache := VStr "";
     uri := p; duration := Some 10;
     start_date := NoBound; end_date := NoBound |}.
Definition doubled_slash : string := "/home/pi//screenly_assets/a.png".
Definition climbing : string := "/home/pi/screenly_assets/../.ssh/id_rsa".


End Sample.

(** ** Further Python primitives *)

Module PyStr.

(** [sep.join(l)] *)
Fixpoint join (sep : string) (l : list string) : string :=
  match l with
  | [] => EmptyString
  | [x] => x
  | x :: rest => x +:+ sep +:+ join sep rest
  end.

(** [str.isspace] on the bytes of a file: the whitespace of the C
    locale. *)
Definition isspace (c : ascii) : bool :=
  let n := nat_of_ascii c in
  ((9 <=? n) && (n <=? 13) || (n =? 32))%nat.

Fixpoint lstrip (s : string) : string :=
  match s with
  | EmptyString => EmptyString
  | String c s' => if isspace c then lstrip s' else s
  end.

Fixpoint rstrip (s : string) : string :=
  match s with
  | EmptyString => EmptyString
  | String c s' =>
      match rstrip s' with
      | EmptyString => if isspace c then EmptyString else String c EmptyString
      | r => String c r
      end
  end.

(** [s.strip()] for a byte string *)
Definition strip (s : string) : string := rstrip (lstrip s).

(** [a == b] on values: numbers and booleans compare by value, strings
    by their characters, and values of different kinds are unequal. *)
Definition eq (a b : value) : bool :=
  match a, b with
  | VNone, VNone => true
  | VStr s, VStr t => String.eqb s t
  | VBool x, VBool y => Bool.eqb x y
  | VInt x, VInt y => x =? y
  | VBool x, VInt y | VInt y, VBool x => (if x then 1 else 0) =? y
  | _, _ => false
  end.

(** The decimal digits of [n], most significant first, for at most
    [fuel] digits. *)
Fixpoint decimal_digits (fuel : nat) (n : Z) : string :=
  match fuel with
  | O => EmptyString
  | S fuel' =>
      let d := String (ascii_of_nat (Z.to_nat (48 + n mod 10))) EmptyString in
      if n <? 10 then d else decimal_digits fuel' (n / 10) +:+ d
  end.

(** [str(n)] for a natural number [n]. *)
Definition decimal (n : Z) : string :=
  decimal_digits (S (Z.to_nat (Z.log2 n))) n.

End PyStr.


(** ** The handlers of [server.py] *)

Definition MSG_FIELDS : string :=
  "Not enough information provided. Please specify 'name', 'uri', and 'mimetype'.".
Definition MSG_PATH : string := "Invalid file path. Failed to add asset.".
Definition MSG_URL : string := "Invalid URL. Failed to add asset.".
Definition MSG_RETRIEVE : string := "Could not retrieve file. Check the asset URL.".
Definition MSG_EXTENSION : string := "Incorrect file extension.".

(** The inner [get(key)] of [prepare_asset]: [data.get(key, '')], with
    strings stripped. *)
Definition get (data : gmap string value) (key : string) : value :=
  match default (VStr "") (data !! key) with
  | VStr s => VStr (strip s)
  | v => v
  end.

(** The receiver of a string method: anything else has no such
    attribute. *)
Definition as_str (v : value) : result string :=
  match v with VStr s => Ok s | _ => Raise AttributeError end.

(** The right operand of [in]: null, booleans and integers are not
    iterable. *)
Definition as_container (v : value) : result string :=
  match v with VStr s => Ok s | _ => Raise TypeError end.

(** [n / d] rounded to the nearest integer, a tie going to the even
    one, for [0 <= n] and [0 < d]. *)
Definition round_half_even (n d : Z) : Z :=
  let q := n / d in
  let r := n mod d in
  if 2 * r <? d then q
  else if d <? 2 * r then q + 1
  else if Z.even q then q else q + 1.

(** [10**6 * 2**k <= a] *)
Definition scaled_le (k a : Z) : bool :=
  if 0 <=? k then 1000000 * 2 ^ k <=? a else 1000000 <=? a * 2 ^ (- k).

(** [td.total_seconds()] for a [timedelta] of [a > 0] microseconds: the
    true division [a / 10**6], which gives the binary64 nearest to the
    quotient, a tie going to the even mantissa.  With [k] the exponent
    of the quotient, [2**k <= a / 10**6 < 2**(k+1)] (it is [log2 a - 19]
    or [log2 a - 20], since [10**6] lies between [2**19] and [2**20]),
    the float is [m * 2**e] for the pair [(m, e)] returned, [e = k - 52],
    with 53 bits of mantissa: [2**52 <= m <= 2**53].  (A [timedelta]
    stays below 10**9 days, far from the ends of the exponent range.) *)
Definition total_seconds (a : Z) : Z * Z :=
  let k := if scaled_le (Z.log2 a - 19) a then Z.log2 a - 19 else Z.log2 a - 20 in
  let e := k - 52 in
  (if e <? 0 then round_half_even (a * 2 ^ (- e)) 1000000
   else round_half_even a (1000000 * 2 ^ e),
   e).

(** [int(x)] for the float [x = m * 2**e], [0 <= m]. *)
Definition int_of_float (x : Z * Z) : Z :=
  if x.2 <? 0 then x.1 / 2 ^ (- x.2) else x.1 * 2 ^ x.2.

(** [int(td.total_seconds())] for a [timedelta] of [us] microseconds:
    the division goes through a float, and [int] truncates toward
    zero. *)
Definition whole_seconds (us : Z) : Z :=
  if us =? 0 then 0
  else Z.sgn us * int_of_float (total_seconds (Z.abs us)).

(** [int(range_str.split(' ')[1].split('-')[0])] *)
Definition start_bytes (range_str : string) : result Z :=
  bind (index (split " " range_str) 1) (fun unit_range =>
  bind (index (split "-" unit_range) 0) int_of_string).

(** The request of [FileAsset.post]: the [file_upload] part, if any, and
    the [Content-Range] header, if any. *)
Record upload := {
  file_upload : option FileStorage;
  content_range : option string
}.

Section Server.

(** [settings['assetdir']] *)
Variable assetdir : string.
(** [lib.utils.validate_url] *)
Variable validate_url : string -> bool.
(** [lib.utils.url_fails], the liveness probe *)
Variable url_fails : string -> bool.
(** [lib.utils.download_video_from_youtube(uri, asset_id)]: the uri,
    the name and the duration it returns.  The download it starts in
    the background is not part of the request. *)
Variable download_video_from_youtube :
  string -> value -> result (string * value * Z).
(** [lib.utils.get_video_duration(uri)]: the [timedelta] it reads from
    the media file, in microseconds. *)
Variable get_video_duration : filesystem -> string -> result Z.
(** [dateutil.parser.parse] *)
Variable date_parse : value -> result datetime.
(** [mimetypes.guess_type(name)[0]] *)
Variable guess_type : string -> option string.
(** [lib.backup_helper.recover(location)], on the files and the
    catalog. *)
Variable backup_recover :
  string -> filesystem * list asset -> (filesystem * list asset) * result unit.

(** *** [prepare_asset] *)

(** Lines 179-180: [name], [uri] and [mimetype] are required. *)
Definition required_fields (data : gmap string value) : bool :=
  truthy (get data "name") && truthy (get data "uri") &&
  truthy (get data "mimetype").

(** Lines 193-198: a uri that starts with a slash is a file path, any
    other is a URL. *)
Definition check_uri (uri : string) : io unit :=
  fun fs =>
    if startswith uri "/" then
      if os.isfile fs uri then (fs, Ok tt)
      else (fs, Raise (Exception MSG_PATH))
    else
      if validate_url uri then (fs, Ok tt)
      else (fs, Raise (Exception MSG_URL)).

(** Lines 200-204: without an [asset_id] the server draws one, and a
    local file moves into the asset directory under it.  [u] is the
    [int] of the [uuid.uuid4()] drawn for this request. *)
Definition assign_id (u : Z) (id : value) (uri : string) : io (value * string) :=
  if negb (truthy id) then
    let new_id := uuid.hex u in
    if startswith uri "/" then
      let dst := posixpath.join assetdir new_id in
      fun fs =>
        match os.rename uri dst fs with
        | Ok fs' => (fs', Ok (VStr new_id, dst))
        | Raise e => (fs, Raise e)
        end
    else ret (VStr new_id, uri)
  else ret (id, uri).

(** Lines 213-218.  [dur] is the duration set so far, if any. *)
Definition resolve_duration (data : gmap string value) (mimetype uri : string)
    (dur : option Z) : io (option Z) :=
  if contains "video" mimetype then
    zero <- lift (if eq_str (get data "duration") "N/A" then Ok true
                  else bind (int (get data "duration"))
                            (fun n => Ok (n =? 0))) ;;
    if (zero : bool) then
      fun fs =>
        match get_video_duration fs uri with
        | Ok us => (fs, Ok (Some (whole_seconds us)))
        | Raise e => (fs, Raise e)
        end
    else ret dur
  else
    (* Crashes if it's not an int. We want that. *)
    n <- lift (int (get data "duration")) ;;
    ret (Some n).

(** Lines 220-229: parse date via python-dateutil and remove timezone
    info. *)
Definition resolve_date (v : value) : io date_field :=
  if truthy v then
    d <- lift (date_parse v) ;;
    ret (Date (replace_tzinfo_None d))
  else ret NoBound.

(** Lines 206-209: a YouTube reference is handed to the downloader,
    which gives the uri, the name and the duration of the record. *)
Definition resolve_youtube (data : gmap string value) (id : value)
    (uri mime : string) : result (string * value * option Z * string * value) :=
  if contains "youtube_asset" mime then
    bind (download_video_from_youtube uri id) (fun r =>
    Ok (r.1.1, r.1.2, Some r.2, "video", VInt 1))
  else
    Ok (uri, get data "name", None, mime, get data "is_processing").

(** Lines 200-231: what [prepare_asset] does once the uri is
    accepted. *)
Definition build_asset (u : Z) (data : gmap string value) (uri : string)
    : io asset :=
  idu <- assign_id u (get data "asset_id") uri ;;
  mime <- lift (as_container (get data "mimetype")) ;;
  y <- lift (resolve_youtube data idu.1 idu.2 mime) ;;
  let '(uri, name, dur, mime, processing) := y in
  dur <- resolve_duration data mime uri dur ;;
  start_date <- resolve_date (get data "start_date") ;;
  end_date <- resolve_date (get data "end_date") ;;
  ret {| name := name;
         mimetype := mime;
         asset_id := idu.1;
         is_enabled := get data "is_enabled";
         is_processing := processing;
         nocache := get data "nocache";
         uri := uri;
         duration := dur;
         start_date := start_date;
         end_date := end_date |}.

Definition prepare_asset (u : Z) (data : gmap string value) : io asset :=
  if negb (required_fields data) then raise (Exception MSG_FIELDS) else
  uri <- lift (as_str (get data "uri")) ;;
  _ <- check_uri uri ;;
  build_asset u data uri.

(** *** [Assets.post] *)

Definition Assets_post (u : Z) (data : gmap string value)
    (st : filesystem * list asset) : (filesystem * list asset) * result response :=
  match prepare_asset u data st.1 with
  | (fs, Raise e) => ((fs, st.2), Raise e)
  | (fs, Ok a) =>
      if url_fails (uri a) then ((fs, st.2), Raise (Exception MSG_RETRIEVE))
      else ((fs, assets_helper.create st.2 a),
            Ok {| payload := Json a; status := 201 |})
  end.

(** *** [Asset.delete] *)

Definition Asset_delete (id : string)
    (st : filesystem * list asset) : (filesystem * list asset) * result response :=
  match assets_helper.read st.2 id with
  | Raise e => (st, Raise e)
  | Ok a =>
      let removed :=
        if startswith (uri a) assetdir then
          match os.remove (uri a) st.1 with
          | Ok fs => Ok fs
          | Raise OSError => Ok st.1      (* except OSError: pass *)
          | Raise e => Raise e
          end
        else Ok st.1 in
      match removed with
      | Raise e => (st, Raise e)
      | Ok fs => ((fs, assets_helper.delete st.2 id),
                  Ok {| payload := Text ""; status := 204 |})
      end
  end.

(** *** [FileAsset.post] *)

(** The largest file offset the file system of the asset directory
    accepts. *)
Variable max_offset : Z.

Definition FileAsset_post (req : upload) : io string :=
  up <- lift (match file_upload req with
              | Some f => Ok f
              | None => Raise AttributeError
              end) ;;
  let file_path := posixpath.join assetdir (filename up) +:+ ".tmp" in
  match content_range req with
  | Some range_str =>
      start <- lift (start_bytes range_str) ;;
      fun fs =>
        let (fs1, f) := os.open_a file_path fs in
        match os.seek max_offset f start with
        | Ok f' => (os.write_a f' (stream up) fs1, Ok file_path)
        | Raise e => (fs1, Raise e)
        end
  | None =>
      fun fs => (os.save up file_path fs, Ok file_path)
  end.

(** *** [Recover.post] *)

Definition Recover_post (backup_upload : option FileStorage)
    (st : filesystem * list asset) : (filesystem * list asset) * result response :=
  match backup_upload with
  | None => (st, Raise KeyError)
  | Some up =>
      if negb (bool_decide (guess_type (filename up) = Some "application/x-tar"))
      then (st, Raise (Exception MSG_EXTENSION))
      else
        let location := posixpath.join "static" (filename up) in
        match backup_recover location (os.save up location st.1, st.2) with
        | (st', Ok _) => (st', Ok {| payload := Text "Recovery successful.";
                                     status := 200 |})
        | (st', Raise e) => (st', Raise e)
        end
  end.

(** *** [AssetsControl.get] *)

Definition AssetsControl_get (listening : bool) (command : string)
    (st : ZmqPublisher.state) (viewer : list string)
    : (ZmqPublisher.state * list string) * result response :=
  let (st1, publisher) := ZmqPublisher.get_instance st in
  (ZmqPublisher.send_to_viewer listening publisher command st1 viewer,
   Ok {| payload := Text "Asset switched"; status := 200 |}).

(** A run of control requests, each with whether the viewer was listening
    at the time. *)
Fixpoint control_session (requests : list (bool * string))
    (st : ZmqPublisher.state) (viewer : list string)
    : ZmqPublisher.state * list string :=
  match requests with
  | [] => (st, viewer)
  | (listening, command) :: rest =>
      let out := AssetsControl_get listening command st viewer in
      control_session rest out.1.1 out.1.2
  end.

(** *** [is_up_to_date] *)

(** [settings.get_configdir()] *)
Variable configdir : string.
(** [git('rev-parse', 'HEAD').stdout], or the exception of the call *)
Variable git_rev_parse_HEAD : result string.

(** Lines 66-93.  The store holds regular files only, so [path.exists]
    is [path.isfile] on it.  The files of the model can all be read, so
    the [except] of the source is met only through a file that has
    gone. *)
Definition is_up_to_date (fs : filesystem) : result bool :=
  let sha_file := posixpath.join configdir "latest_screenly_sha" in
  if negb (os.isfile fs sha_file) then Ok true else
  let latest_sha :=
    match fs !! sha_file with
    | Some content => Some (PyStr.strip (String.string_of_list_byte content))
    | None => None
    end in
  match latest_sha with
  | Some sha =>
      if negb (String.eqb sha "") then
        bind git_rev_parse_HEAD (fun stdout =>
        Ok (String.eqb (PyStr.strip stdout) sha))
      else Ok true
  | None => Ok true
  end.

(** *** [ResetWifiConfig.get] *)

(** [getenv('HOME')] *)
Variable HOME : option string.

(** Lines 653-660.  [path.join] of no directory has no string to work
    on. *)
Definition ResetWifiConfig_get : io response :=
  match HOME with
  | None => raise AttributeError
  | Some home =>
      let file_path := posixpath.join home ".screenly/initialized" in
      fun fs =>
        if os.isfile fs file_path then
          match os.remove file_path fs with
          | Ok fs' => (fs', Ok {| payload := Text ""; status := 204 |})
          | Raise e => (fs, Raise e)
          end
        else (fs, Ok {| payload := Text ""; status := 204 |})
  end.

(** *** [PlaylistOrder.post] *)

(** [lib.assets_helper.save_ordering(conn, ids)] *)
Variable save_ordering : list string -> list asset -> list asset * result unit.

(** [request.form.get('ids', '').split(',')] *)
Definition playlist_ids (form : gmap string string) : list string :=
  split "," (default EmptyString (form !! "ids")).

(** Lines 589-591 *)
Definition PlaylistOrder_post (form : gmap string string) (db : list asset)
    : list asset * result unit :=
  save_ordering (playlist_ids form) db.

(** *** [settings_page] *)

(** [CONFIGURABLE_SETTINGS.items()] and [DEFAULTS['viewer'].items()], in
    the order the dictionaries give them. *)
Variable CONFIGURABLE_SETTINGS : list (string * value).
Variable viewer_defaults : list (string * value).
(** [settings.save()] and [settings.load()] of the settings object, on
    the values it holds. *)
Variable settings_save : gmap string value -> result unit.
Variable settings_load : gmap string value -> result (gmap string value).

(** What the loop over the form can raise: the [ValueError] of line 790,
    or an exception of a built-in. *)
Inductive raised :=
| PasswordsDoNotMatch
| Raised (e : exn).

(** The [except] clauses of lines 802-807. *)
Definition caught (r : raised) : bool :=
  match r with
  | PasswordsDoNotMatch => true
  | Raised ValueError | Raised IOError | Raised OSError => true
  | Raised _ => false
  end.

(** [context['flash']] *)
Inductive flash :=
| NoFlash
| FlashSuccess (message : string)
| FlashError (message : raised).

(** An entry of the template's context. *)
Inductive entry :=
| Setting (v : value)
| Flash (f : flash).

Inductive settings_request :=
| GET
| POST (form : gmap string string).

(** The settings object in memory, what [settings.save()] has written so
    far, and the publisher with its viewer. *)
Record site := {
  conf : gmap string value;
  written : list (gmap string value);
  zmq : ZmqPublisher.state;
  inbox : list string
}.

(** [d[key]] *)
Definition lookup_key (d : gmap string value) (key : string) : raised + value :=
  match d !! key with
  | Some v => inr v
  | None => inl (Raised KeyError)
  end.

(** Lines 787-796: one turn of the loop. *)
Definition assign_setting (form : gmap string string) (c : gmap string value)
    (field : string) (default : value) : raised + gmap string value :=
  let value := from_option VStr default (form !! field) in
  let checked :=
    if String.eqb field "password" then
      if negb (PyStr.eq value (VStr (from_option id EmptyString (form !! "password2"))))
      then inl PasswordsDoNotMatch
      else if PyStr.eq value (VStr "") then
        match lookup_key c "user" with
        | inl r => inl r
        | inr user =>
            if negb (PyStr.eq user (VStr "")) then lookup_key c "password"
            else inr value
        end
      else inr value
    else inr value in
  match checked with
  | inl r => inl r
  | inr value =>
      let value :=
        match default with
        | VBool _ => VBool (PyStr.eq value (VStr "on"))
        | _ => value
        end in
      inr (<[field := value]> c)
  end.

(** Lines 786-796: the loop; the settings assigned before an exception
    stay assigned. *)
Fixpoint assign_settings (form : gmap string string)
    (fields : list (string * value)) (c : gmap string value)
    : gmap string value * option raised :=
  match fields with
  | [] => (c, None)
  | (field, default) :: rest =>
      match assign_setting form c field default with
      | inl r => (c, Some r)
      | inr c' => assign_settings form rest c'
      end
  end.

(** Lines 810-811 *)
Fixpoint show_settings (fields : list (string * value)) (c : gmap string value)
    (context : gmap string entry) : raised + gmap string entry :=
  match fields with
  | [] => inr context
  | (field, _) :: rest =>
      match lookup_key c field with
      | inl r => inl r
      | inr v => show_settings rest c (<[field := Setting v]> context)
      end
  end.

(** Lines 810-820: the context handed to the template. *)
Definition settings_context (c : gmap string value) (context : gmap string entry)
    : raised + gmap string entry :=
  match show_settings viewer_defaults c context with
  | inl r => inl r
  | inr context =>
      match lookup_key c "user" with
      | inl r => inl r
      | inr user =>
          let context := <["user" := Setting user]> context in
          if negb (truthy user) then
            inr (<["use_auth" := Setting (VBool false)]> context)
          else
            match lookup_key c "password" with
            | inl r => inl r
            | inr password =>
                inr (<["use_auth" := Setting (VBool (truthy password))]> context)
            end
      end
  end.

Definition MSG_SAVED : string := "Settings were successfully saved.".

(** Lines 778-820.  [listening] tells whether the viewer hears the
    publisher at that time. *)
Definition settings_page (listening : bool) (req : settings_request) (w : site)
    : site * (raised + gmap string entry) :=
  let context : gmap string entry := {[ "flash" := Flash NoFlash ]} in
  let finish (w : site) (context : gmap string entry) :=
    (w, settings_context (conf w) context) in
  match req with
  | POST form =>
      match assign_settings form CONFIGURABLE_SETTINGS (conf w) with
      | (c, Some r) =>
          let w := {| conf := c; written := written w; zmq := zmq w;
                      inbox := inbox w |} in
          if caught r then finish w (<["flash" := Flash (FlashError r)]> context)
          else (w, inl r)
      | (c, None) =>
          match settings_save c with
          | Raise e =>
              let w := {| conf := c; written := written w; zmq := zmq w;
                          inbox := inbox w |} in
              if caught (Raised e)
              then finish w (<["flash" := Flash (FlashError (Raised e))]> context)
              else (w, inl (Raised e))
          | Ok _ =>
              let (st, publisher) := ZmqPublisher.get_instance (zmq w) in
              let sent :=
                ZmqPublisher.send_to_viewer listening publisher "reload" st (inbox w) in
              finish {| conf := c; written := written w ++ [c]; zmq := sent.1;
                        inbox := sent.2 |}
                     (<["flash" := Flash (FlashSuccess MSG_SAVED)]> context)
          end
      end
  | GET =>
      match settings_load (conf w) with
      | Raise e => (w, inl (Raised e))
      | Ok c =>
          finish {| conf := c; written := written w; zmq := zmq w;
                    inbox := inbox w |} context
      end
  end.


(** *** Predicates of the statements *)

(** What [prepare_asset] stores for a date entry [v] of the request:
    the parsed date without its zone, or the sentinel. *)
Definition date_stored (v : value) (f : date_field) : Prop :=
  (truthy v = true ->
   exists d, date_parse v = Ok d /\ f = Date {| wall := wall d; tzinfo := None |}) /\
  (truthy v = false -> f = NoBound).


(** The request is not a YouTube reference. *)
Definition plain_media (data : gmap string value) : bool :=
  match get data "mimetype" with
  | VStr m => negb (contains "youtube_asset" m)
  | _ => true
  end.

(** The uri the record carries, and the files once the upload has moved. *)
Definition stored_uri (u : Z) (data : gmap string value) (uri : string) : string :=
  if truthy (get data "asset_id") then uri
  else if startswith uri "/" then posixpath.join assetdir (uuid.hex u)
  else uri.

Definition after_move (u : Z) (data : gmap string value) (uri : string)
    (fs : filesystem) : filesystem :=
  if truthy (get data "asset_id") then fs
  else if startswith uri "/" then
    match fs !! uri with
    | Some c => <[posixpath.join assetdir (uuid.hex u) := c]> (delete uri fs)
    | None => fs
    end
  else fs.


(** A value that counts as missing: null, false, zero, or a string of
    whitespace only (the empty string included). *)
Definition blank (v : value) : bool :=
  match v with
  | VStr s => uuid.all_chars Py.isspace s
  | v => negb (truthy v)
  end.


(** ** Properties *)

(** *** Strings, paths and identifiers *)

Lemma app_cons c (s t : string) : String c s +:+ t = String c (s +:+ t).
Proof. reflexivity. Qed.

Lemma length_app (s t : string) :
  String.length (s +:+ t) = (String.length s + String.length t)%nat.
Proof.
  induction s as [|c s IH]; [reflexivity|].
  rewrite app_cons. simpl. rewrite IH. reflexivity.
Qed.

Lemma all_chars_app P (s t : string) :
  uuid.all_chars P (s +:+ t) = uuid.all_chars P s && uuid.all_chars P t.
Proof.
  induction s as [|c s IH]; [reflexivity|].
  rewrite app_cons. simpl. rewrite IH. apply andb_assoc.
Qed.

Lemma startswith_nil (s : string) : startswith s "" = true.
Proof. destruct s; reflexivity. Qed.


Lemma startswith_prefix (p d x : string) :
  startswith p (d +:+ x) = true -> startswith p d = true.
Proof.
  revert p. induction d as [|c d IH]; intros p; [intros _; apply startswith_nil|].
  rewrite app_cons. destruct p as [|b p]; [discriminate|].
  simpl. intros H. apply andb_true_iff in H as [Hc H].
  rewrite Hc. apply IH, H.
Qed.

Lemma string_app_assoc (a b c : string) : (a +:+ b) +:+ c = a +:+ b +:+ c.
Proof.
  induction a as [|x a IH]; [reflexivity|].
  rewrite !app_cons, IH. reflexivity.
Qed.

Lemma contains_char_cons sep c (s : string) :
  contains (String sep "") (String c s)
  = Ascii.eqb sep c || contains (String sep "") s.
Proof.
  cbn [contains startswith]. rewrite startswith_nil, andb_true_r. reflexivity.
Qed.

Lemma split_head sep (s : string) :
  exists w ws, split sep s = w :: ws /\ contains (String sep "") w = false.
Proof.
  induction s as [|c s (w & ws & IH & Hw)].
  - exists "", []. split; reflexivity.
  - cbn [split]. destruct (Ascii.eqb_spec c sep) as [->|Hc].
    + exists "", (split sep s). split; reflexivity.
    + rewrite IH. exists (String c w), ws. split; [reflexivity|].
      rewrite contains_char_cons, Hw, orb_false_r.
      apply Ascii.eqb_neq. congruence.
Qed.

Lemma contains_char_app sep (a b : string) :
  contains (String sep "") (a +:+ b)
  = contains (String sep "") a || contains (String sep "") b.
Proof.
  induction a as [|c a IH]; [reflexivity|].
  rewrite app_cons, !contains_char_cons, IH. apply orb_assoc.
Qed.

Lemma split_plain sep (b : string) :
  contains (String sep "") b = false -> split sep b = [b].
Proof.
  induction b as [|c b IH]; [reflexivity|]. rewrite contains_char_cons.
  intros H. apply orb_false_iff in H as [Hc Hb]. cbn [split].
  rewrite Ascii.eqb_sym, Hc, (IH Hb). reflexivity.
Qed.

Lemma split_snoc sep (a b : string) :
  contains (String sep "") b = false ->
  split sep (a +:+ String sep b) = split sep a ++ [b].
Proof.
  intros Hb. induction a as [|c a IH].
  - change ("" +:+ String sep b) with (String sep b). cbn [split].
    rewrite Ascii.eqb_refl, (split_plain _ _ Hb). reflexivity.
  - rewrite app_cons. cbn [split]. rewrite IH.
    destruct (Ascii.eqb c sep); [reflexivity|].
    destruct (split_head sep a) as (w & ws & -> & _). reflexivity.
Qed.

Lemma endswith_slash_app (s : string) :
  posixpath.endswith_slash s = true -> exists d, s = d +:+ "/".
Proof.
  induction s as [|c s IH]; [discriminate|]. destruct s as [|c' s'].
  - cbn [posixpath.endswith_slash]. intros H. apply Ascii.eqb_eq in H as ->.
    exists "". reflexivity.
  - intros H.
    change (posixpath.endswith_slash (String c' s') = true) in H.
    destruct (IH H) as [d Hd]. exists (String c d). rewrite app_cons, <- Hd.
    reflexivity.
Qed.

(** *** Where a path leads *)

Lemma step_name absolute stack (name : string) :
  name <> "" -> name <> "." -> name <> ".." ->
  posixpath.step absolute stack name = name :: stack.
Proof.
  intros H1 H2 H3. unfold posixpath.step.
  apply String.eqb_neq in H1, H2, H3. rewrite H1, H2, H3. reflexivity.
Qed.

Lemma below_snoc d (base : string) :
  base <> ".." -> posixpath.below d (d ++ [base]) = true.
Proof.
  intros Hb. apply String.eqb_neq in Hb.
  induction d as [|x d IH].
  - cbn. rewrite Hb. reflexivity.
  - cbn [app posixpath.below]. rewrite String.eqb_refl. exact IH.
Qed.

Lemma startswith_slash_app (d x y : string) :
  startswith (d +:+ String "/" x) "/" = startswith (d +:+ String "/" y) "/".
Proof.
  destruct d as [|c d].
  - change ("" +:+ String "/" x) with (String "/" x).
    change ("" +:+ String "/" y) with (String "/" y).
    cbn [startswith]. rewrite !startswith_nil. reflexivity.
  - rewrite !app_cons. cbn [startswith]. rewrite !startswith_nil. reflexivity.
Qed.

Lemma startswith_slash_dir (d x : string) :
  d <> "" -> startswith (d +:+ x) "/" = startswith d "/".
Proof.
  destruct d as [|c d]; [congruence|]. intros _.
  rewrite app_cons. cbn [startswith]. rewrite !startswith_nil. reflexivity.
Qed.

(** The path [d/base] leads to the entry [base] of the directory that
    [d/] leads to. *)
Lemma resolve_entry (d base : string) :
  contains "/" base = false -> base <> "" -> base <> "." -> base <> ".." ->
  posixpath.resolve (d +:+ String "/" base)
  = ((posixpath.resolve (d +:+ "/")).1, (posixpath.resolve (d +:+ "/")).2 ++ [base]).
Proof.
  intros Hs H1 H2 H3. unfold posixpath.resolve. cbn [fst snd].
  rewrite (startswith_slash_app d base "").
  rewrite (split_snoc "/" d base Hs), (split_snoc "/" d "" eq_refl).
  rewrite !List.fold_left_app. cbn [List.fold_left].
  rewrite (step_name _ _ _ H1 H2 H3).
  change (posixpath.step (startswith (d +:+ "/") "/")
            (List.fold_left (posixpath.step (startswith (d +:+ "/") "/"))
               (split "/" d) []) "")
    with (List.fold_left (posixpath.step (startswith (d +:+ "/") "/"))
            (split "/" d) []).
  reflexivity.
Qed.

(** A trailing slash does not change where a directory's path leads. *)
Lemma resolve_slash (d : string) :
  d <> "" -> posixpath.resolve (d +:+ "/") = posixpath.resolve d.
Proof.
  intros Hd. unfold posixpath.resolve.
  rewrite (startswith_slash_dir d "/" Hd).
  rewrite (split_snoc "/" d "" eq_refl), List.fold_left_app. reflexivity.
Qed.

Lemma tmp_name (name : string) :
  name +:+ ".tmp" <> "" /\ name +:+ ".tmp" <> "." /\ name +:+ ".tmp" <> "..".
Proof.
  repeat split; intros H; apply (f_equal String.length) in H;
    rewrite length_app in H; cbn in H; lia.
Qed.

Lemma inside_entry (dir p base : string) :
  base <> ".." ->
  posixpath.resolve p = ((posixpath.resolve dir).1, (posixpath.resolve dir).2 ++ [base]) ->
  posixpath.inside dir p = true.
Proof.
  intros Hb Hp. unfold posixpath.inside. rewrite Hp. cbn [fst snd].
  rewrite Bool.eqb_reflx, (below_snoc _ _ Hb). reflexivity.
Qed.

(** A file name that holds no slash names an entry of the directory it
    is joined to, whatever follows the name. *)
Lemma join_inside (dir name : string) :
  contains "/" name = false ->
  posixpath.inside dir (posixpath.join dir name +:+ ".tmp") = true.
Proof.
  intros Hname.
  assert (contains "/" (name +:+ ".tmp") = false) as Hbase
    by (rewrite contains_char_app, Hname; reflexivity).
  destruct (tmp_name name) as (H1 & H2 & H3).
  assert (startswith name "/" = false) as Hrel.
  { destruct name as [|c name]; [reflexivity|].
    rewrite contains_char_cons in Hname. apply orb_false_iff in Hname as [Hc _].
    cbn [startswith]. rewrite Hc. reflexivity. }
  unfold posixpath.join. rewrite Hrel.
  destruct (String.eqb_spec dir "") as [->|Hdir]; cbn [orb].
  - change ("" +:+ name) with name. apply (inside_entry _ _ (name +:+ ".tmp") H3).
    unfold posixpath.resolve.
    assert (startswith (name +:+ ".tmp") "/" = false) as ->.
    { destruct name as [|c name]; [reflexivity|].
      rewrite startswith_slash_dir by discriminate. exact Hrel. }
    rewrite (split_plain _ _ Hbase). cbn [List.fold_left].
    rewrite (step_name _ _ _ H1 H2 H3). reflexivity.
  - destruct (posixpath.endswith_slash dir) eqn:Hend.
    + destruct (endswith_slash_app _ Hend) as [d ->].
      rewrite !string_app_assoc. change ("/" +:+ name +:+ ".tmp")
        with (String "/" (name +:+ ".tmp")).
      apply (inside_entry _ _ (name +:+ ".tmp") H3).
      apply resolve_entry; assumption.
    + rewrite !string_app_assoc. change ("/" +:+ name +:+ ".tmp")
        with (String "/" (name +:+ ".tmp")).
      apply (inside_entry _ _ (name +:+ ".tmp") H3).
      rewrite <- (resolve_slash dir Hdir). apply resolve_entry; assumption.
Qed.










(** *** Steps of [prepare_asset] *)

Lemma get_absent (data : gmap string value) key :
  data !! key = None -> get data key = VStr "".
Proof. intros H. unfold get. rewrite H. reflexivity. Qed.

Lemma resolve_duration_files data mime uri dur fs :
  (resolve_duration data mime uri dur fs).1 = fs.
Proof.
  unfold resolve_duration, io_bind, lift, ret.
  destruct (contains "video" mime).
  - destruct (if eq_str _ _ then _ else _) as [[|]|]; simpl; try reflexivity.
    destruct (get_video_duration fs uri); reflexivity.
  - destruct (int _); reflexivity.
Qed.

Lemma resolve_date_files v fs : (resolve_date v fs).1 = fs.
Proof.
  unfold resolve_date, io_bind, lift, ret.
  destruct (truthy v); [|reflexivity].
  destruct (date_parse v); reflexivity.
Qed.

Lemma resolve_date_stored v fs fs' f :
  resolve_date v fs = (fs', Ok f) -> date_stored v f.
Proof.
  unfold resolve_date, io_bind, lift, ret, date_stored.
  destruct (truthy v).
  - destruct (date_parse v) as [d|]; intros H; inversion H; subst.
    split; [|discriminate]. intros _. exists d. split; reflexivity.
  - intros H; inversion H; subst. split; [discriminate|reflexivity].
Qed.

Lemma build_asset_ok u data uri0 fs fs' a :
  build_asset u data uri0 fs = (fs', Ok a) ->
  exists uri1 mime0 dur0,
    assign_id u (get data "asset_id") uri0 fs = (fs', Ok (asset_id a, uri1)) /\
    as_container (get data "mimetype") = Ok mime0 /\
    resolve_youtube data (asset_id a) uri1 mime0
      = Ok (uri a, name a, dur0, mimetype a, is_processing a) /\
    resolve_duration data (mimetype a) (uri a) dur0 fs' = (fs', Ok (duration a)) /\
    resolve_date (get data "start_date") fs' = (fs', Ok (start_date a)) /\
    resolve_date (get data "end_date") fs' = (fs', Ok (end_date a)) /\
    is_enabled a = get data "is_enabled" /\ nocache a = get data "nocache".
Proof.
  unfold build_asset, io_bind at 1 2 3.
  destruct (assign_id u _ uri0 fs) as [fs1 [[id uri1]|e]] eqn:Hid; [|discriminate].
  unfold lift at 1 2.
  destruct (as_container _) as [mime0|] eqn:Hm; [|discriminate].
  simpl fst; simpl snd.
  destruct (resolve_youtube _ _ _ _) as [[[[[uri2 nm] dur0] mime2] proc]|] eqn:Hy;
    [|discriminate].
  unfold io_bind.
  pose proof (resolve_duration_files data mime2 uri2 dur0 fs1) as Hd1.
  destruct (resolve_duration data mime2 uri2 dur0 fs1) as [fs2 [dur|]] eqn:Hd;
    [|discriminate].
  simpl in Hd1; subst fs2.
  pose proof (resolve_date_files (get data "start_date") fs1) as Hs1.
  destruct (resolve_date (get data "start_date") fs1) as [fs2 [sd|]] eqn:Hs;
    [|discriminate].
  simpl in Hs1; subst fs2.
  pose proof (resolve_date_files (get data "end_date") fs1) as He1.
  destruct (resolve_date (get data "end_date") fs1) as [fs2 [ed|]] eqn:He;
    [|discriminate].
  simpl in He1; subst fs2.
  unfold ret. intros H; inversion H; subst; simpl.
  exists uri1, mime0, dur0. repeat split; assumption.
Qed.

Lemma prepare_asset_checked u data uri fs :
  required_fields data = true -> get data "uri" = VStr uri ->
  prepare_asset u data fs =
    match check_uri uri fs with
    | (fs1, Ok _) => build_asset u data uri fs1
    | (fs1, Raise e) => (fs1, Raise e)
    end.
Proof.
  intros Hreq Huri. unfold prepare_asset. rewrite Hreq, Huri. reflexivity.
Qed.

Lemma prepare_asset_ok u data fs fs' a :
  prepare_asset u data fs = (fs', Ok a) ->
  required_fields data = true /\
  exists uri0, get data "uri" = VStr uri0 /\
    check_uri uri0 fs = (fs, Ok tt) /\
    build_asset u data uri0 fs = (fs', Ok a).
Proof.
  unfold prepare_asset.
  destruct (required_fields data); [|discriminate].
  split; [reflexivity|]. simpl in H.
  unfold io_bind at 1 in H. unfold lift at 1 in H.
  destruct (get data "uri") as [| | |uri0]; try discriminate.
  exists uri0. split; [reflexivity|]. simpl in H.
  unfold io_bind in H. unfold check_uri in *.
  destruct (startswith uri0 "/").
  - destruct (os.isfile fs uri0); [auto|discriminate].
  - destruct (validate_url uri0); [auto|discriminate].
Qed.


Lemma assign_id_kept u v uri0 fs :
  truthy v = true -> assign_id u v uri0 fs = (fs, Ok (v, uri0)).
Proof. intros Hv. unfold assign_id. rewrite Hv. reflexivity. Qed.

Lemma resolve_youtube_plain data id uri0 m :
  contains "youtube_asset" m = false ->
  resolve_youtube data id uri0 m
    = Ok (uri0, get data "name", None, m, get data "is_processing").
Proof. intros H. unfold resolve_youtube. rewrite H. reflexivity. Qed.

Lemma as_container_ok v m : as_container v = Ok m -> v = VStr m.
Proof. destruct v; intros H; inversion H; reflexivity. Qed.


Lemma resolve_youtube_video data id uri0 m uri1 nm dur0 mime proc :
  resolve_youtube data id uri0 m = Ok (uri1, nm, dur0, mime, proc) ->
  contains "video" m = true -> contains "video" mime = true.
Proof.
  unfold resolve_youtube, bind. intros H Hv.
  destruct (contains "youtube_asset" m).
  - destruct (download_video_from_youtube uri0 id); [|discriminate H].
    injection H as _ _ _ <- _. reflexivity.
  - injection H as _ _ _ <- _. exact Hv.
Qed.

Lemma resolve_duration_probe data mime uri0 dur0 fs fs' dur :
  contains "video" mime = true ->
  eq_str (get data "duration") "N/A" = true \/ int (get data "duration") = Ok 0 ->
  resolve_duration data mime uri0 dur0 fs = (fs', Ok dur) ->
  exists us, get_video_duration fs uri0 = Ok us /\ dur = Some (whole_seconds us).
Proof.
  intros Hv Hz. unfold resolve_duration, io_bind, lift, bind. rewrite Hv.
  assert ((if eq_str (get data "duration") "N/A" then Ok true
           else match int (get data "duration") with
                | Ok n => Ok (n =? 0)
                | Raise e => Raise e
                end) = Ok true) as ->.
  { destruct Hz as [-> | Hz]; [reflexivity|].
    destruct (eq_str _ _); [reflexivity|]. rewrite Hz. reflexivity. }
  destruct (get_video_duration fs uri0) as [us|]; intros H; [|discriminate H].
  injection H as _ <-. exists us. split; reflexivity.
Qed.

(** *** Running [prepare_asset] forward *)

Lemma round_half_even_bounds n d :
  0 <= n -> 0 < d ->
  n / d <= round_half_even n d /\ 2 * d * round_half_even n d <= 2 * n + d.
Proof.
  intros Hn Hd. unfold round_half_even.
  pose proof (Z.div_mod n d ltac:(lia)) as Hdm.
  pose proof (Z.mod_pos_bound n d Hd) as Hr.
  set (q := n / d) in *. set (r := n mod d) in *.
  destruct (Z.ltb_spec (2 * r) d); [nia|].
  destruct (Z.ltb_spec d (2 * r)); [nia|].
  destruct (Z.even q); nia.
Qed.

(** Below 2**34 seconds the float is so close to the quotient that
    cutting it gives the whole seconds of the duration. *)
Lemma whole_seconds_floor us :
  0 <= us < 2 ^ 34 * 1000000 -> whole_seconds us = us / 1000000.
Proof.
  change (2 ^ 34 * 1000000) with 17179869184000000. intros [H0 Hlt].
  unfold whole_seconds. destruct (Z.eqb_spec us 0) as [->|Hnz]; [reflexivity|].
  rewrite Z.sgn_pos, Z.abs_eq, Z.mul_1_l by lia.
  unfold total_seconds, int_of_float. cbn [fst snd].
  pose proof (Z.log2_nonneg us) as HL0.
  assert (Z.log2 us < 54) as HL.
  { apply Z.log2_lt_pow2; [lia|]. change (2 ^ 54) with 18014398509481984. lia. }
  set (k := if scaled_le (Z.log2 us - 19) us then Z.log2 us - 19
            else Z.log2 us - 20).
  assert (-20 <= k <= 33) as Hk.
  { subst k. destruct (scaled_le (Z.log2 us - 19) us) eqn:Hs; [|lia].
    destruct (Z.eq_dec (Z.log2 us) 53) as [HL53|]; [|lia].
    rewrite HL53 in Hs. unfold scaled_le in Hs.
    change (0 <=? 53 - 19) with true in Hs.
    change (1000000 * 2 ^ (53 - 19)) with 17179869184000000 in Hs.
    apply Z.leb_le in Hs. lia. }
  destruct (Z.ltb_spec (k - 52) 0) as [_|Hge]; [|lia].
  set (t := - (k - 52)).
  assert (524288 <= 2 ^ t) as HP.
  { change 524288 with (2 ^ 19). apply Z.pow_le_mono_r; lia. }
  set (P := 2 ^ t) in *.
  destruct (round_half_even_bounds (us * P) 1000000) as [Hlo Hhi]; [nia|lia|].
  set (m := round_half_even (us * P) 1000000) in *.
  pose proof (Z.div_mod us 1000000 ltac:(lia)) as Hdm.
  pose proof (Z.mod_pos_bound us 1000000 ltac:(lia)) as Hr.
  set (q := us / 1000000) in *. set (r := us mod 1000000) in *.
  assert (q * P <= us * P / 1000000) as Hq
    by (apply Z.div_le_lower_bound; [lia|nia]).
  assert (r * P <= 999999 * P) as HrP by nia.
  symmetry. apply (Z.div_unique m P q (m - P * q)); [left; nia|lia].
Qed.




Lemma assign_id_run u data uri0 fs :
  (startswith uri0 "/" = true -> os.isfile fs uri0 = true) ->
  exists id,
    assign_id u (get data "asset_id") uri0 fs
      = (after_move u data uri0 fs, Ok (id, stored_uri u data uri0)).
Proof.
  intros Hfile. unfold assign_id, after_move, stored_uri.
  generalize (uuid.hex u). intros h.
  destruct (truthy (get data "asset_id")); cbn [negb].
  - eexists. reflexivity.
  - destruct (startswith uri0 "/").
    + specialize (Hfile eq_refl). unfold os.isfile in Hfile.
      apply bool_decide_eq_true in Hfile as [c Hc].
      unfold os.rename. rewrite Hc. eexists. reflexivity.
    + eexists. reflexivity.
Qed.



Lemma build_asset_files u data uri0 fs :
  (build_asset u data uri0 fs).1 = (assign_id u (get data "asset_id") uri0 fs).1.
Proof.
  unfold build_asset, io_bind at 1 2 3.
  destruct (assign_id u _ uri0 fs) as [fs1 [[id uri1]|e]]; [|reflexivity].
  unfold lift at 1 2. cbn [fst snd].
  destruct (as_container _) as [mime0|]; [|reflexivity].
  destruct (resolve_youtube _ _ _ _) as [[[[[uri2 nm] dur0] mime2] proc]|];
    [|reflexivity].
  unfold io_bind.
  pose proof (resolve_duration_files data mime2 uri2 dur0 fs1) as Hd1.
  destruct (resolve_duration data mime2 uri2 dur0 fs1) as [fs2 [dur|]];
    simpl in Hd1; subst fs2; [|reflexivity].
  pose proof (resolve_date_files (get data "start_date") fs1) as Hs1.
  destruct (resolve_date (get data "start_date") fs1) as [fs2 [sd|]];
    simpl in Hs1; subst fs2; [|reflexivity].
  pose proof (resolve_date_files (get data "end_date") fs1) as He1.
  destruct (resolve_date (get data "end_date") fs1) as [fs2 [ed|]];
    simpl in He1; subst fs2; reflexivity.
Qed.





(** *** Uploads, removal, the catalog *)

Lemma FileAsset_post_first up fs :
  FileAsset_post {| file_upload := Some up; content_range := None |} fs
  = (<[posixpath.join assetdir (filename up) +:+ ".tmp" := stream up]> fs,
     Ok (posixpath.join assetdir (filename up) +:+ ".tmp")).
Proof. reflexivity. Qed.

Lemma seek_accepted limit f k :
  os.seekable limit k = true ->
  os.seek limit f k = Ok {| os.path := os.path f; os.pos := k |}.
Proof.
  unfold os.seekable, os.seek, os.OFF_T_MAX. intros H.
  apply andb_true_iff in H as [H H3]. apply andb_true_iff in H as [H1 H2].
  apply Z.leb_le in H1, H2, H3.
  destruct (Z.ltb_spec k (- 2 ^ 63)); [lia|].
  destruct (Z.ltb_spec (2 ^ 63 - 1) k); [lia|]. cbn [orb].
  destruct (Z.ltb_spec k 0); [lia|].
  destruct (Z.ltb_spec limit k); [lia|]. reflexivity.
Qed.


Lemma FileAsset_post_next up h old fs :
  fs !! (posixpath.join assetdir (filename up) +:+ ".tmp") = Some old ->
  start_bytes h = Ok (Z.of_nat (length old)) ->
  os.seekable max_offset (Z.of_nat (length old)) = true ->
  FileAsset_post {| file_upload := Some up; content_range := Some h |} fs
  = (<[posixpath.join assetdir (filename up) +:+ ".tmp" := old ++ stream up]> fs,
     Ok (posixpath.join assetdir (filename up) +:+ ".tmp")).
Proof.
  intros Hold Hh Hseek. unfold FileAsset_post, io_bind, lift.
  cbn [file_upload content_range]. rewrite Hh.
  unfold os.open_a. rewrite (seek_accepted _ _ _ Hseek).
  unfold os.write_a. cbn [os.path]. rewrite Hold. cbn [default].
  rewrite lookup_insert_eq, insert_insert_eq. reflexivity.
Qed.

Lemma read_deleted db id :
  assets_helper.read (assets_helper.delete db id) id = Raise NotFoundError.
Proof.
  unfold assets_helper.read, assets_helper.delete.
  induction db as [|a db IH]; [reflexivity|].
  cbn [List.filter]. destruct (assets_helper.has_id id a) eqn:Ha; cbn [negb].
  - exact IH.
  - cbn [List.find]. rewrite Ha. exact IH.
Qed.

Lemma remove_or_pass p (fs : filesystem) :
  match os.remove p fs with
  | Ok fs' => Ok fs'
  | Raise OSError => Ok fs
  | Raise e => Raise e
  end = Ok (delete p fs).
Proof.
  unfold os.remove. destruct (fs !! p) eqn:Hp; [reflexivity|].
  rewrite delete_id by exact Hp. reflexivity.
Qed.

(** *** The publisher over a run of requests *)

Lemma control_session_published requests c n viewer :
  let out :=
    control_session requests
      {| ZmqPublisher.INSTANCE := Some c; ZmqPublisher.constructed := n |} viewer in
  ZmqPublisher.INSTANCE out.1
    = Some {| ZmqPublisher.chan_id := ZmqPublisher.chan_id c;
              ZmqPublisher.sent := ZmqPublisher.sent c ++ requests.*2 |} /\
  ZmqPublisher.constructed out.1 = n.
Proof.
  revert c viewer. induction requests as [|[l cmd] rest IH]; intros c viewer.
  - destruct c. cbn. rewrite app_nil_r. split; reflexivity.
  - cbn [control_session]. cbn [AssetsControl_get ZmqPublisher.get_instance
      ZmqPublisher.INSTANCE ZmqPublisher.send_to_viewer fst snd].
    cbv zeta. cbn [fst snd ZmqPublisher.constructed].
    destruct (IH {| ZmqPublisher.chan_id := ZmqPublisher.chan_id c;
                    ZmqPublisher.sent := ZmqPublisher.sent c ++ [cmd] |}
                 (if l then viewer ++ [cmd] else viewer)) as [H1 H2].
    cbv zeta in H1, H2. rewrite H1, H2. cbn [ZmqPublisher.chan_id ZmqPublisher.sent].
    rewrite <- app_assoc. split; reflexivity.
Qed.

(** From the start of the process, any run of control requests goes
    through one channel, the first one constructed, in order. *)
Lemma one_publisher_per_process listening command rest viewer :
  let out :=
    control_session ((listening, command) :: rest)
      {| ZmqPublisher.INSTANCE := None; ZmqPublisher.constructed := 0 |} viewer in
  ZmqPublisher.INSTANCE out.1
    = Some {| ZmqPublisher.chan_id := 0;
              ZmqPublisher.sent := command :: rest.*2 |} /\
  ZmqPublisher.constructed out.1 = 1%nat.
Proof.
  cbn [control_session]. cbn [AssetsControl_get ZmqPublisher.get_instance
    ZmqPublisher.INSTANCE ZmqPublisher.send_to_viewer fst snd].
  cbv zeta. cbn [fst snd ZmqPublisher.constructed ZmqPublisher.chan_id
    ZmqPublisher.sent app].
  apply (control_session_published rest
           {| ZmqPublisher.chan_id := 0; ZmqPublisher.sent := [command] |}).
Qed.

(** *** The claims *)

(** C1. For every asset, [is_active] is true if and only if [is_enabled]
    is true and either no active window is set or the current time falls
    within [start_date, end_date], both ends included. *)
Theorem is_active_iff (a : asset) (now : Z) :
  assets_helper.is_active a now = true <->
  truthy (is_enabled a) = true /\
  (assets_helper.no_window a \/ assets_helper.within_window a now).
Proof.
  unfold assets_helper.is_active, assets_helper.no_window,
    assets_helper.within_window.
  rewrite andb_true_iff.
  split.
  - intros [He Hw]. split; [exact He|].
    destruct (start_date a) as [|s], (end_date a) as [|e]; try discriminate.
    + left. split; reflexivity.
    + right. exists s, e. apply andb_true_iff in Hw as [H1 H2].
      apply Z.leb_le in H1. apply Z.leb_le in H2. auto.
  - intros [He [[Hs Hn]|(s & e & Hs & Hn & Hle)]]; split; try exact He;
      rewrite Hs, Hn; [reflexivity|].
    apply andb_true_iff. split; apply Z.leb_le; lia.
Qed.

(** C7. For every create/update request, a supplied [start_date] or
    [end_date] is parsed and stored with its timezone information
    stripped, and an absent one is stored as the explicit no-bound
    sentinel (the empty string, not null). *)
Theorem dates_parsed_without_timezone u data fs fs' a :
  prepare_asset u data fs = (fs', Ok a) ->
  date_stored (get data "start_date") (start_date a) /\
  date_stored (get data "end_date") (end_date a) /\
  (data !! "start_date" = None -> start_date a = NoBound) /\
  (data !! "end_date" = None -> end_date a = NoBound).
Proof.
  intros H. apply prepare_asset_ok in H as (_ & uri0 & _ & _ & H).
  apply build_asset_ok in H as (uri1 & mime0 & dur0 & _ & _ & _ & _ & Hs & He & _).
  apply resolve_date_stored in Hs, He.
  repeat split; try apply Hs; try apply He.
  - intros Habs. apply Hs. rewrite (get_absent _ _ Habs). reflexivity.
  - intros Habs. apply He. rewrite (get_absent _ _ Habs). reflexivity.
Qed.

(** C10. During validation a uri is a local file path, required to
    reference an existing file, if and only if it begins with a slash;
    every other uri, a relative path included, is validated as a URL. *)
Theorem uri_is_path_iff_leading_slash u data uri fs :
  required_fields data = true -> get data "uri" = VStr uri ->
  prepare_asset u data fs =
    if startswith uri "/" then
      if os.isfile fs uri then build_asset u data uri fs
      else (fs, Raise (Exception MSG_PATH))
    else
      if validate_url uri then build_asset u data uri fs
      else (fs, Raise (Exception MSG_URL)).
Proof.
  intros Hreq Huri. rewrite (prepare_asset_checked _ _ _ _ Hreq Huri).
  unfold check_uri.
  destruct (startswith uri "/").
  - destruct (os.isfile fs uri); reflexivity.
  - destruct (validate_url uri); reflexivity.
Qed.


(** C5 (amended). For every create/update request with a video
    mimetype: if the caller's duration is the sentinel 'N/A' or parses
    to the integer zero, the stored duration is obtained by probing the
    media file and taking [int] of its [total_seconds()], a float;
    for a probed duration from zero up to 2**34 seconds that is the
    duration rounded down to whole seconds. *)
Theorem video_duration_probed u data fs fs' a m :
  get data "mimetype" = VStr m -> contains "video" m = true ->
  eq_str (get data "duration") "N/A" = true \/ int (get data "duration") = Ok 0 ->
  prepare_asset u data fs = (fs', Ok a) ->
  exists us,
    get_video_duration fs' (uri a) = Ok us /\
    duration a = Some (whole_seconds us) /\
    (0 <= us < 2 ^ 34 * 1000000 -> whole_seconds us = us / 1000000).
Proof.
  intros Hm Hv Hz H.
  apply prepare_asset_ok in H as (_ & uri0 & _ & _ & H).
  apply build_asset_ok in H as (uri1 & mime0 & dur0 & _ & Hc & Hy & Hd & _).
  apply as_container_ok in Hc. rewrite Hm in Hc. injection Hc as <-.
  pose proof (resolve_youtube_video _ _ _ _ _ _ _ _ _ Hy Hv) as Hv'.
  destruct (resolve_duration_probe _ _ _ _ _ _ _ Hv' Hz Hd) as (us & Hp & Hdur).
  exists us. split; [exact Hp|]. split; [exact Hdur|]. apply whole_seconds_floor.
Qed.


(** C2 (amended). A first chunk (a request without a Content-Range
    header) creates the file [<filename>.tmp], which lies in the asset
    directory for a file name that holds no slash, with exactly the
    payload; a later chunk whose declared start offset is the current
    length of that file, an offset the host accepts, is written at that
    offset; hence submitting A first, without the header, and then B at
    offset len(A) gives a file equal to A followed by B. *)
Theorem chunked_upload_in_order (a : FileStorage) (fs : filesystem) :
  let file_path := posixpath.join assetdir (filename a) +:+ ".tmp" in
  let first := FileAsset_post {| file_upload := Some a; content_range := None |} fs in
  (first.2 = Ok file_path /\ first.1 !! file_path = Some (stream a)) /\
  (contains "/" (filename a) = false ->
   posixpath.inside assetdir file_path = true) /\
  (forall old h,
     fs !! file_path = Some old ->
     start_bytes h = Ok (Z.of_nat (length old)) ->
     os.seekable max_offset (Z.of_nat (length old)) = true ->
     let next := FileAsset_post {| file_upload := Some a; content_range := Some h |} fs in
     next.2 = Ok file_path /\
     exists new, next.1 !! file_path = Some new /\
       take (length old) new = old /\ drop (length old) new = stream a) /\
  (forall b h,
     filename b = filename a ->
     start_bytes h = Ok (Z.of_nat (length (stream a))) ->
     os.seekable max_offset (Z.of_nat (length (stream a))) = true ->
     let second :=
       FileAsset_post {| file_upload := Some b; content_range := Some h |} first.1 in
     second.2 = Ok file_path /\
     second.1 !! file_path = Some (stream a ++ stream b)).
Proof.
  cbv zeta. rewrite FileAsset_post_first.
  set (file_path := posixpath.join assetdir (filename a) +:+ ".tmp").
  cbn [fst snd].
  split; [split; [reflexivity|apply lookup_insert_eq]|].
  split; [intros Hname; apply join_inside; assumption|].
  split.
  - intros old h Hold Hh Hseek.
    rewrite (FileAsset_post_next _ _ _ _ Hold Hh Hseek). fold file_path.
    cbn [fst snd].
    split; [reflexivity|]. exists (old ++ stream a).
    split; [apply lookup_insert_eq|].
    split; [apply take_app_length|apply drop_app_length].
  - intros b h Hname Hh Hseek.
    assert (file_path = posixpath.join assetdir (filename b) +:+ ".tmp") as Hp
      by (subst file_path; rewrite Hname; reflexivity).
    rewrite (FileAsset_post_next b h (stream a)).
    + rewrite <- Hp. cbn [fst snd]. split; [reflexivity|].
      rewrite insert_insert_eq. apply lookup_insert_eq.
    + rewrite <- Hp. apply lookup_insert_eq.
    + exact Hh.
    + exact Hseek.
Qed.

(** What [Asset.delete] does for a record of the catalog: the file at
    the uri is removed exactly when the uri begins with the characters of
    the asset directory's path; no other file is touched, a file that is
    not there is no error, and the record is removed. *)
Lemma Asset_delete_found id fs db a :
  assets_helper.read db id = Ok a ->
  Asset_delete id (fs, db)
  = ((if startswith (uri a) assetdir then delete (uri a) fs else fs,
      assets_helper.delete db id),
     Ok {| payload := Text ""; status := 204 |}).
Proof.
  intros Hread. unfold Asset_delete. cbn [fst snd]. rewrite Hread.
  destruct (startswith (uri a) assetdir); [|reflexivity].
  rewrite remove_or_pass. reflexivity.
Qed.

(** C4 (amended). A recovery upload whose file name does not indicate a
    tar archive (the type guessed from the name is the only thing the
    check looks at) is rejected with an error before any state changes:
    the files and the catalog are as they were. *)
Theorem recover_rejects_other_file_names up st :
  guess_type (filename up) <> Some "application/x-tar" ->
  Recover_post (Some up) st = (st, Raise (Exception MSG_EXTENSION)) /\
  status (api_response (Recover_post (Some up) st).2) = 500.
Proof.
  intros Hty. unfold Recover_post.
  rewrite bool_decide_eq_false_2 by exact Hty. split; reflexivity.
Qed.

(** C9. A playback-control command is handed to the one publisher of
    the process and the request answers with success, whether the
    viewer is listening or not: the answer never reports a failure of
    delivery.  (How soon it answers is beyond this model.) *)
Theorem control_always_succeeds listening command st viewer :
  let out := AssetsControl_get listening command st viewer in
  api_response out.2 = {| payload := Text "Asset switched"; status := 200 |} /\
  out.2 = (AssetsControl_get (negb listening) command st viewer).2 /\
  out.1.1 = (AssetsControl_get (negb listening) command st viewer).1.1 /\
  (exists c,
     ZmqPublisher.INSTANCE out.1.1 = Some c /\
     ZmqPublisher.sent c
       = from_option ZmqPublisher.sent [] (ZmqPublisher.INSTANCE st) ++ [command] /\
     ZmqPublisher.chan_id c
       = from_option ZmqPublisher.chan_id (ZmqPublisher.constructed st)
           (ZmqPublisher.INSTANCE st)) /\
  ZmqPublisher.constructed out.1.1
    = match ZmqPublisher.INSTANCE st with
      | Some _ => ZmqPublisher.constructed st
      | None => S (ZmqPublisher.constructed st)
      end.
Proof.
  unfold AssetsControl_get, ZmqPublisher.get_instance, ZmqPublisher.send_to_viewer.
  destruct st as [[c|] n]; cbn.
  - repeat split. eexists. repeat split.
  - repeat split. eexists. repeat split.
Qed.

(** ** Further properties *)

(** *** Stripping *)

Lemma lstrip_blank (s : string) :
  uuid.all_chars Py.isspace s = true -> Py.lstrip s = "".
Proof.
  induction s as [|c s IH]; [reflexivity|]. cbn [uuid.all_chars Py.lstrip].
  intros H. apply andb_true_iff in H as [Hc Hs]. rewrite Hc. apply IH, Hs.
Qed.

Lemma lstrip_head (s : string) :
  match Py.lstrip s with
  | EmptyString => uuid.all_chars Py.isspace s = true
  | String c _ => Py.isspace c = false
  end.
Proof.
  induction s as [|c s IH]; [reflexivity|]. cbn [Py.lstrip].
  destruct (Py.isspace c) eqn:Hc; [|exact Hc].
  destruct (Py.lstrip s); [|exact IH]. cbn [uuid.all_chars]. rewrite Hc. exact IH.
Qed.

Lemma rstrip_head c (s : string) :
  Py.isspace c = false -> exists t, Py.rstrip (String c s) = String c t.
Proof.
  intros Hc. cbn [Py.rstrip]. destruct (Py.rstrip s); [rewrite Hc|]; eexists; reflexivity.
Qed.

Lemma rstrip_idempotent (s : string) : Py.rstrip (Py.rstrip s) = Py.rstrip s.
Proof.
  induction s as [|c s IH]; [reflexivity|].
  change (Py.rstrip (String c s)) with
    (match Py.rstrip s with
     | EmptyString => if Py.isspace c then EmptyString else String c EmptyString
     | String _ _ as r => String c r
     end).
  destruct (Py.rstrip s) as [|b r] eqn:Hr.
  - destruct (Py.isspace c) eqn:Hc; [reflexivity|]. cbn [Py.rstrip]. rewrite Hc.
    reflexivity.
  - change (Py.rstrip (String c (String b r))) with
      (match Py.rstrip (String b r) with
       | EmptyString => if Py.isspace c then EmptyString else String c EmptyString
       | String _ _ as r' => String c r'
       end).
    rewrite IH. reflexivity.
Qed.

Lemma strip_blank_iff (s : string) :
  Py.strip s = "" <-> uuid.all_chars Py.isspace s = true.
Proof.
  unfold Py.strip. split.
  - intros H. pose proof (lstrip_head s) as Hh.
    destruct (Py.lstrip s) as [|c t]; [exact Hh|].
    destruct (rstrip_head c t Hh) as [r Hr]. rewrite Hr in H. discriminate H.
  - intros H. rewrite (lstrip_blank _ H). reflexivity.
Qed.

Lemma strip_idempotent (s : string) : Py.strip (Py.strip s) = Py.strip s.
Proof.
  unfold Py.strip. pose proof (lstrip_head s) as Hh.
  destruct (Py.lstrip s) as [|c t]; [reflexivity|].
  destruct (rstrip_head c t Hh) as [r Hr]. rewrite Hr.
  change (Py.lstrip (String c r)) with (if Py.isspace c then Py.lstrip r else String c r).
  rewrite Hh, <- Hr. apply rstrip_idempotent.
Qed.

Lemma get_stripped data key s : get data key = VStr s -> Py.strip s = s.
Proof.
  unfold get. destruct (default (VStr "") (data !! key)); try discriminate.
  intros H. injection H as <-. apply strip_idempotent.
Qed.

Lemma get_blank data key :
  truthy (get data key) = negb (blank (default (VStr "") (data !! key))).
Proof.
  unfold get, blank. destruct (default (VStr "") (data !! key)) as [|b|n|s];
    try (rewrite negb_involutive; reflexivity).
  cbn [truthy]. f_equal.
  destruct (String.eqb_spec (Py.strip s) "") as [He|Hne].
  - symmetry. apply strip_blank_iff, He.
  - destruct (uuid.all_chars Py.isspace s) eqn:Hb; [|reflexivity].
    apply strip_blank_iff in Hb. congruence.
Qed.

Lemma assign_id_unmoved u v uri0 fs fs' id uri1 :
  truthy v = true \/ startswith uri0 "/" = false ->
  assign_id u v uri0 fs = (fs', Ok (id, uri1)) -> uri1 = uri0 /\ fs' = fs.
Proof.
  unfold assign_id. generalize (uuid.hex u). intros h Hcase.
  destruct (truthy v); cbn [negb].
  - unfold ret. intros H. injection H as <- _ <-. split; reflexivity.
  - destruct Hcase as [Hcase|Hcase]; [discriminate Hcase|]. rewrite Hcase.
    unfold ret. intros H. injection H as <- _ <-. split; reflexivity.
Qed.


(** *** [prepare_asset] and [Assets.post], further *)

(** X1. A required field ([name], [uri], [mimetype]) that is absent,
    null, false, zero or made of whitespace only makes [prepare_asset]
    raise the "Not enough information" error before anything is touched;
    and when none of the three is blank the check passes. *)
Theorem blank_required_field_is_missing u data fs :
  ((exists key, key ∈ ["name"; "uri"; "mimetype"] /\
                blank (default (VStr "") (data !! key)) = true) ->
   prepare_asset u data fs = (fs, Raise (Exception MSG_FIELDS))) /\
  ((forall key, key ∈ ["name"; "uri"; "mimetype"] ->
                blank (default (VStr "") (data !! key)) = false) ->
   required_fields data = true).
Proof.
  split.
  - intros (key & Hkey & Hb).
    assert (required_fields data = false) as Hreq.
    { unfold required_fields. rewrite !get_blank.
      repeat (apply elem_of_cons in Hkey as [->|Hkey]);
        [| | |apply elem_of_nil in Hkey; contradiction];
        rewrite Hb; cbn [negb andb];
        repeat rewrite andb_false_r; reflexivity. }
    unfold prepare_asset. rewrite Hreq. reflexivity.
  - intros H. unfold required_fields. rewrite !get_blank.
    rewrite (H "name"), (H "uri"), (H "mimetype") by (repeat constructor).
    reflexivity.
Qed.

(** X2. The strings that [prepare_asset] takes from the request carry no
    whitespace at either end: stripping the stored mimetype or name again
    changes nothing, and when the file does not move the stored uri is the
    stripped uri of the request. *)
Theorem stored_text_is_stripped u data fs fs' a :
  prepare_asset u data fs = (fs', Ok a) ->
  plain_media data = true ->
  Py.strip (mimetype a) = mimetype a /\
  (forall s, name a = VStr s -> Py.strip s = s) /\
  (forall uri0, get data "uri" = VStr uri0 ->
     truthy (get data "asset_id") = true \/ startswith uri0 "/" = false ->
     uri a = uri0 /\ Py.strip (uri a) = uri a).
Proof.
  intros H Hp.
  apply prepare_asset_ok in H as (_ & uri0 & Huri & _ & H).
  apply build_asset_ok in H as (uri1 & mime0 & dur0 & Ha & Hc & Hy & _).
  apply as_container_ok in Hc. unfold plain_media in Hp. rewrite Hc in Hp.
  apply negb_true_iff in Hp.
  rewrite (resolve_youtube_plain _ _ _ _ Hp) in Hy.
  injection Hy as Hu Hn _ Hm _. subst mime0.
  split; [apply (get_stripped data "mimetype"), Hc|].
  split.
  - intros s Hs. apply (get_stripped data "name"). congruence.
  - intros uri0' Huri' Hcase. rewrite Huri in Huri'. injection Huri' as <-.
    destruct (assign_id_unmoved _ _ _ _ _ _ _ Hcase Ha) as [-> _].
    rewrite <- Hu. split; [reflexivity|]. apply (get_stripped data "uri"), Huri.
Qed.


Lemma prepare_asset_files u data fs :
  (prepare_asset u data fs).1 = fs \/
  exists uri0, get data "uri" = VStr uri0 /\
    (prepare_asset u data fs).1 = (assign_id u (get data "asset_id") uri0 fs).1.
Proof.
  destruct (required_fields data) eqn:Hreq;
    [|left; unfold prepare_asset; rewrite Hreq; reflexivity].
  destruct (get data "uri") as [|b|n|uri0] eqn:Huri;
    try (left; unfold prepare_asset; rewrite Hreq, Huri; reflexivity).
  rewrite (prepare_asset_checked _ _ _ _ Hreq Huri). unfold check_uri.
  destruct (startswith uri0 "/").
  - destruct (os.isfile fs uri0); [|left; reflexivity].
    right. exists uri0. split; [reflexivity|apply build_asset_files].
  - destruct (validate_url uri0); [|left; reflexivity].
    right. exists uri0. split; [reflexivity|apply build_asset_files].
Qed.

Lemma int_not_sentinel v n : int v = Ok n -> eq_str v "N/A" = false.
Proof.
  destruct v as [|b|z|s]; try reflexivity. cbn [eq_str int].
  destruct (String.eqb_spec s "N/A") as [->|]; [|reflexivity].
  intros H. vm_compute in H. discriminate H.
Qed.

(** X3. Whatever the request and however it ends, [prepare_asset] leaves
    the files as they were or moves exactly one: the request's local file,
    when the request brings no [asset_id], goes to its managed path with
    its content, and no other path changes. *)
Theorem prepare_asset_moves_at_most_one_file u data fs :
  let fs' := (prepare_asset u data fs).1 in
  fs' = fs \/
  exists uri0 content,
    get data "uri" = VStr uri0 /\ startswith uri0 "/" = true /\
    truthy (get data "asset_id") = false /\
    fs !! uri0 = Some content /\
    fs' = <[posixpath.join assetdir (uuid.hex u) := content]> (delete uri0 fs).
Proof.
  cbv zeta. destruct (prepare_asset_files u data fs) as [H|(uri0 & Huri & H)];
    [left; exact H|].
  rewrite H. unfold assign_id. generalize (uuid.hex u). intros h.
  destruct (truthy (get data "asset_id")) eqn:Hid; cbn [negb]; [left; reflexivity|].
  destruct (startswith uri0 "/") eqn:Hs; [|left; reflexivity].
  unfold os.rename. destruct (fs !! uri0) as [c|] eqn:Hc; [|left; reflexivity].
  right. exists uri0, c. repeat split; assumption.
Qed.

(** X4. A create request that fails on its duration after its local file
    was accepted leaves the file moved: for a mimetype other than video,
    a duration that is no integer raises once the upload sits under its
    managed name, and no record is stored for it. *)
Theorem failed_create_leaves_file_moved u data fs db uri0 content m e :
  required_fields data = true ->
  get data "uri" = VStr uri0 -> startswith uri0 "/" = true ->
  fs !! uri0 = Some content ->
  truthy (get data "asset_id") = false ->
  get data "mimetype" = VStr m ->
  contains "youtube_asset" m = false -> contains "video" m = false ->
  int (get data "duration") = Raise e ->
  Assets_post u data (fs, db)
  = ((<[posixpath.join assetdir (uuid.hex u) := content]> (delete uri0 fs), db),
     Raise e).
Proof.
  intros Hreq Huri Hs Hc Hid Hm Hy Hv Hd.
  unfold Assets_post. cbn [fst snd].
  rewrite (prepare_asset_checked _ _ _ _ Hreq Huri).
  unfold check_uri, os.isfile. rewrite Hs.
  rewrite bool_decide_eq_true_2 by (rewrite Hc; eexists; reflexivity).
  unfold build_asset, io_bind at 1 2 3. unfold assign_id. rewrite Hid, Hs.
  cbn [negb]. generalize (uuid.hex u). intros h.
  unfold os.rename. rewrite Hc, Hm. unfold lift at 1 2. cbn [as_container fst snd].
  rewrite (resolve_youtube_plain _ _ _ _ Hy).
  unfold io_bind at 1. unfold resolve_duration. rewrite Hv.
  unfold io_bind, lift. rewrite Hd. reflexivity.
Qed.

(** X5. A request that brings its [asset_id] (an update) never touches
    the files, however it ends; the record keeps that id, and for a
    mimetype other than a YouTube reference its uri is the request's. *)
Theorem supplied_id_moves_nothing u data fs :
  truthy (get data "asset_id") = true ->
  (prepare_asset u data fs).1 = fs /\
  forall fs' a, prepare_asset u data fs = (fs', Ok a) ->
    asset_id a = get data "asset_id" /\
    (plain_media data = true -> get data "uri" = VStr (uri a)).
Proof.
  intros Hid. split.
  - destruct (prepare_asset_files u data fs) as [H|(uri0 & _ & H)]; [exact H|].
    rewrite H, (assign_id_kept _ _ _ _ Hid). reflexivity.
  - intros fs' a H.
    apply prepare_asset_ok in H as (_ & uri0 & Huri & _ & H).
    apply build_asset_ok in H as (uri1 & mime0 & dur0 & Ha & Hc & Hy & _).
    rewrite (assign_id_kept _ _ _ _ Hid) in Ha. injection Ha as _ Ha Hu. subst uri1.
    split; [symmetry; exact Ha|].
    intros Hp. apply as_container_ok in Hc. unfold plain_media in Hp.
    rewrite Hc in Hp. apply negb_true_iff in Hp.
    rewrite (resolve_youtube_plain _ _ _ _ Hp) in Hy. injection Hy as Hy _ _ _ _.
    rewrite Huri, Hy. reflexivity.
Qed.

(** X6. For a mimetype that is neither video nor a YouTube reference the
    stored duration is [int(duration)] as it stands, with no check of its
    sign or size; a request whose duration is no integer is never
    accepted. *)
Theorem other_media_store_the_duration_given u data fs fs' a m :
  get data "mimetype" = VStr m ->
  contains "video" m = false -> contains "youtube_asset" m = false ->
  prepare_asset u data fs = (fs', Ok a) ->
  exists n, int (get data "duration") = Ok n /\ duration a = Some n.
Proof.
  intros Hm Hv Hy H.
  apply prepare_asset_ok in H as (_ & uri0 & _ & _ & H).
  apply build_asset_ok in H as (uri1 & mime0 & dur0 & _ & Hc & Hyt & Hd & _).
  apply as_container_ok in Hc. rewrite Hm in Hc. injection Hc as <-.
  rewrite (resolve_youtube_plain _ _ _ _ Hy) in Hyt.
  injection Hyt as _ _ _ Hmime _. rewrite <- Hmime in Hd.
  unfold resolve_duration in Hd. rewrite Hv in Hd.
  unfold io_bind, lift, ret in Hd.
  destruct (int (get data "duration")) as [n|]; [|discriminate Hd].
  injection Hd as Hd. exists n. split; [reflexivity|symmetry; exact Hd].
Qed.

(** X7. For a video that is no YouTube reference, a duration that parses
    to an integer other than zero takes no probe and sets no duration: the
    record that [prepare_asset] returns has no [duration] key. *)
Theorem video_with_duration_sets_none u data fs fs' a m n :
  get data "mimetype" = VStr m ->
  contains "video" m = true -> contains "youtube_asset" m = false ->
  int (get data "duration") = Ok n -> n <> 0 ->
  prepare_asset u data fs = (fs', Ok a) ->
  duration a = None.
Proof.
  intros Hm Hv Hy Hn Hnz H.
  apply prepare_asset_ok in H as (_ & uri0 & _ & _ & H).
  apply build_asset_ok in H as (uri1 & mime0 & dur0 & _ & Hc & Hyt & Hd & _).
  apply as_container_ok in Hc. rewrite Hm in Hc. injection Hc as <-.
  rewrite (resolve_youtube_plain _ _ _ _ Hy) in Hyt.
  injection Hyt as _ _ Hdur Hmime _. rewrite <- Hmime, <- Hdur in Hd.
  unfold resolve_duration in Hd. rewrite Hv in Hd.
  unfold io_bind, lift, ret, bind in Hd.
  rewrite (int_not_sentinel _ _ Hn), Hn in Hd.
  destruct (Z.eqb_spec n 0) as [|_]; [contradiction|].
  injection Hd as Hd. symmetry. exact Hd.
Qed.

(** X8. For a YouTube reference the record is the downloader's: the
    downloader is called with the uri as accepted (the managed path, when
    a local file was moved) and the record's id; the record's uri and
    name are those it returns, the mimetype becomes [video] and
    [is_processing] is 1.  The duration is the probe of the returned uri
    exactly when the request's duration is 'N/A' or zero, and otherwise,
    for an integer other than zero, the duration the downloader
    returned. *)
Theorem youtube_record_is_the_downloaders u data fs fs' a m :
  get data "mimetype" = VStr m -> contains "youtube_asset" m = true ->
  prepare_asset u data fs = (fs', Ok a) ->
  mimetype a = "video" /\ is_processing a = VInt 1 /\
  exists uri0 d,
    get data "uri" = VStr uri0 /\
    download_video_from_youtube (stored_uri u data uri0) (asset_id a)
    = Ok (uri a, name a, d) /\
    ((eq_str (get data "duration") "N/A" = true \/ int (get data "duration") = Ok 0) /\
     (exists us, get_video_duration fs' (uri a) = Ok us /\
                 duration a = Some (whole_seconds us))
     \/
     (exists n, eq_str (get data "duration") "N/A" = false /\
                int (get data "duration") = Ok n /\ n <> 0 /\
                duration a = Some d)).
Proof.
  intros Hm Hy H.
  apply prepare_asset_ok in H as (_ & uri0 & Huri & Hcheck & H).
  apply build_asset_ok in H as (uri1 & mime0 & dur0 & Ha & Hc & Hyt & Hd & _).
  apply as_container_ok in Hc. rewrite Hm in Hc. injection Hc as <-.
  assert (startswith uri0 "/" = true -> os.isfile fs uri0 = true) as Hfile.
  { intros Hs. unfold check_uri in Hcheck. rewrite Hs in Hcheck.
    destruct (os.isfile fs uri0); [reflexivity|discriminate Hcheck]. }
  destruct (assign_id_run u data uri0 fs Hfile) as [id Hid].
  rewrite Hid in Ha. injection Ha as _ _ Hu1.
  unfold resolve_youtube, bind in Hyt. rewrite Hy in Hyt.
  destruct (download_video_from_youtube uri1 (asset_id a)) as [[[ru rn] rd]|] eqn:Hdl;
    [|discriminate Hyt].
  cbn [fst snd] in Hyt. injection Hyt as Hu Hn Hdur Hmime Hproc.
  split; [symmetry; exact Hmime|]. split; [symmetry; exact Hproc|].
  exists uri0, rd. split; [exact Huri|].
  split; [rewrite Hu1, Hdl, Hu, Hn; reflexivity|].
  rewrite <- Hmime, <- Hdur in Hd. unfold resolve_duration in Hd.
  change (contains "video" "video") with true in Hd.
  unfold io_bind, lift, ret, bind in Hd.
  destruct (eq_str (get data "duration") "N/A") eqn:Hna.
  - left. split; [left; reflexivity|].
    destruct (get_video_duration fs' (uri a)) as [us|]; [|discriminate Hd].
    injection Hd as Hd. exists us. split; [reflexivity|symmetry; exact Hd].
  - destruct (int (get data "duration")) as [n|] eqn:Hint; [|discriminate Hd].
    destruct (Z.eqb_spec n 0) as [->|Hnz].
    + left. split; [right; reflexivity|].
      destruct (get_video_duration fs' (uri a)) as [us|]; [|discriminate Hd].
      injection Hd as Hd. exists us. split; [reflexivity|symmetry; exact Hd].
    + right. exists n. injection Hd as Hd.
      repeat split; [exact Hnz|symmetry; exact Hd].
Qed.


(** *** [FileAsset.post], further *)












Lemma string_app_nil_r (s : string) : s +:+ "" = s.
Proof. induction s as [|c s IH]; [reflexivity|]. rewrite app_cons, IH. reflexivity. Qed.

Lemma split_app_head sep (a b : string) :
  contains (String sep "") a = false ->
  split sep (a +:+ b)
  = match split sep b with
    | w :: ws => (a +:+ w) :: ws
    | [] => [a]
    end.
Proof.
  induction a as [|c a IH]; intros Ha.
  - change ("" +:+ b) with b. destruct (split_head sep b) as (w & ws & -> & _).
    reflexivity.
  - rewrite contains_char_cons in Ha. apply orb_false_iff in Ha as [Hc Ha].
    rewrite app_cons. cbn [split]. rewrite Ascii.eqb_sym, Hc, (IH Ha).
    destruct (split sep b); reflexivity.
Qed.

Lemma split_at_sep sep (a b : string) :
  contains (String sep "") a = false ->
  split sep (a +:+ String sep b) = a :: split sep b.
Proof.
  intros Ha. rewrite (split_app_head _ _ _ Ha). cbn [split].
  rewrite Ascii.eqb_refl, string_app_nil_r. reflexivity.
Qed.

Lemma digit_of_nat m :
  0 <= m < 10 -> digit (ascii_of_nat (Z.to_nat (48 + m))) = Some m.
Proof.
  intros Hm. unfold digit. rewrite nat_ascii_embedding by lia.
  destruct (Nat.leb_spec 48 (Z.to_nat (48 + m))) as [_|Hlo]; [|lia].
  destruct (Nat.leb_spec (Z.to_nat (48 + m)) 57) as [_|Hhi]; [|lia].
  cbn [andb]. f_equal. lia.
Qed.

Lemma digits_app (a b : string) acc :
  digits acc (a +:+ b)
  = match digits acc a with Some x => digits x b | None => None end.
Proof.
  revert acc. induction a as [|c a IH]; intros acc; [reflexivity|].
  rewrite app_cons. cbn [digits]. destruct (digit c); [apply IH|reflexivity].
Qed.

Lemma decimal_digits_value fuel n :
  0 <= n < 2 ^ Z.of_nat fuel ->
  digits 0 (PyStr.decimal_digits fuel n) = Some n.
Proof.
  revert n. induction fuel as [|fuel IH]; intros n Hn.
  - change (2 ^ Z.of_nat 0) with 1 in Hn. replace n with 0 by lia. reflexivity.
  - rewrite Nat2Z.inj_succ, Z.pow_succ_r in Hn by lia.
    cbn [PyStr.decimal_digits]. destruct (Z.ltb_spec n 10) as [Hlt|Hge].
    + cbn [digits]. rewrite digit_of_nat by (apply Z.mod_pos_bound; lia).
      rewrite Z.mod_small by lia. reflexivity.
    + rewrite digits_app, IH.
      * cbn [digits]. rewrite digit_of_nat by (apply Z.mod_pos_bound; lia).
        f_equal. pose proof (Z.div_mod n 10). lia.
      * split; [apply Z.div_pos; lia|apply Z.div_lt_upper_bound; lia].
Qed.

Lemma decimal_value n : 0 <= n -> digits 0 (PyStr.decimal n) = Some n.
Proof.
  intros Hn. apply decimal_digits_value. split; [exact Hn|].
  rewrite Nat2Z.inj_succ, Z2Nat.id by apply Z.log2_nonneg.
  destruct (Z.eq_dec n 0) as [->|Hnz]; [reflexivity|].
  apply Z.log2_spec. lia.
Qed.

Lemma decimal_digits_all fuel n :
  0 <= n ->
  uuid.all_chars (fun c => bool_decide (is_Some (digit c)))
                 (PyStr.decimal_digits fuel n) = true.
Proof.
  revert n. induction fuel as [|fuel IH]; intros n Hn; [reflexivity|].
  assert (uuid.all_chars (fun c => bool_decide (is_Some (digit c)))
            (String (ascii_of_nat (Z.to_nat (48 + n mod 10))) "") = true) as Hd.
  { cbn [uuid.all_chars]. rewrite digit_of_nat by (apply Z.mod_pos_bound; lia).
    reflexivity. }
  cbn [PyStr.decimal_digits]. destruct (n <? 10); [exact Hd|].
  rewrite all_chars_app, IH, Hd by (apply Z.div_pos; lia). reflexivity.
Qed.

Lemma decimal_nonempty n : exists c t, PyStr.decimal n = String c t.
Proof.
  unfold PyStr.decimal. cbn [PyStr.decimal_digits].
  destruct (n <? 10); [eexists _, _; reflexivity|].
  destruct (PyStr.decimal_digits _ _); eexists _, _; reflexivity.
Qed.

Lemma digit_char c :
  is_Some (digit c) ->
  Py.isspace c = false /\ Ascii.eqb " " c = false /\ Ascii.eqb "-" c = false /\
  forall t, match String c t with
            | String "-" t => Z.opp <$> unsigned_literal t
            | String "+" t => unsigned_literal t
            | t => unsigned_literal t
            end = digits 0 (String c t).
Proof.
  destruct c as [[] [] [] [] [] [] [] []]; intros [d Hd];
    first [discriminate Hd|repeat split].
Qed.

Lemma digits_without sep (s : string) :
  (forall c, is_Some (digit c) -> Ascii.eqb sep c = false) ->
  uuid.all_chars (fun c => bool_decide (is_Some (digit c))) s = true ->
  contains (String sep "") s = false.
Proof.
  intros Hsep. induction s as [|c s IH]; [reflexivity|]. cbn [uuid.all_chars].
  intros H. apply andb_true_iff in H as [Hc Hs]. apply bool_decide_eq_true in Hc.
  rewrite contains_char_cons, (Hsep _ Hc), (IH Hs). reflexivity.
Qed.

Lemma rstrip_digits (s : string) :
  uuid.all_chars (fun c => bool_decide (is_Some (digit c))) s = true ->
  Py.rstrip s = s.
Proof.
  induction s as [|c s IH]; [reflexivity|]. cbn [uuid.all_chars].
  intros H. apply andb_true_iff in H as [Hc Hs]. apply bool_decide_eq_true in Hc.
  cbn [Py.rstrip]. rewrite (IH Hs). destruct s; [|reflexivity].
  destruct (digit_char c Hc) as [-> _]. reflexivity.
Qed.

Lemma int_of_decimal n : 0 <= n -> int_of_string (PyStr.decimal n) = Ok n.
Proof.
  intros Hn. pose proof (decimal_digits_all (S (Z.to_nat (Z.log2 n))) n Hn) as Hall.
  fold (PyStr.decimal n) in Hall. pose proof (decimal_value n Hn) as Hv.
  destruct (decimal_nonempty n) as (c & t & Hs). rewrite Hs in Hall, Hv |- *.
  pose proof Hall as Hc. cbn [uuid.all_chars] in Hc.
  apply andb_true_iff in Hc as [Hc _]. apply bool_decide_eq_true in Hc.
  destruct (digit_char c Hc) as (Hsp & _ & _ & Hm).
  unfold int_of_string, Py.strip.
  change (Py.lstrip (String c t)) with (if Py.isspace c then Py.lstrip t else String c t).
  rewrite Hsp, (rstrip_digits _ Hall), Hm, Hv. reflexivity.
Qed.

(** X10. The start offset of a Content-Range header is read back: for
    every offset [k] written in decimal after the unit, whatever follows
    the dash (the end offset and the total), [start_bytes] gives [k]. *)
Theorem content_range_start_read_back k (rest : string) :
  0 <= k ->
  start_bytes ("bytes " +:+ PyStr.decimal k +:+ "-" +:+ rest) = Ok k.
Proof.
  intros Hk. unfold start_bytes.
  pose proof (decimal_digits_all (S (Z.to_nat (Z.log2 k))) k Hk) as Hall.
  fold (PyStr.decimal k) in Hall.
  assert (contains " " (PyStr.decimal k) = false) as Hsp
    by (apply digits_without; [intros c Hc; apply (digit_char c Hc)|exact Hall]).
  assert (contains "-" (PyStr.decimal k) = false) as Hda
    by (apply digits_without; [intros c Hc; apply (digit_char c Hc)|exact Hall]).
  change ("bytes " +:+ PyStr.decimal k +:+ "-" +:+ rest)
    with ("bytes" +:+ String " " (PyStr.decimal k +:+ String "-" rest)).
  rewrite split_at_sep by reflexivity.
  rewrite (split_app_head " " _ _ Hsp). cbn [split].
  change (Ascii.eqb "-" " ") with false. cbv iota.
  destruct (split_head " " rest) as (w & ws & -> & _).
  unfold index. cbn [lookup list_lookup bind].
  rewrite (split_at_sep "-" _ _ Hda). cbn [lookup list_lookup].
  apply int_of_decimal, Hk.
Qed.


(** *** [is_up_to_date] *)

(** X11. An update is reported only on evidence: [is_up_to_date] answers
    False exactly when the sha file exists, holds something besides
    whitespace, and git's HEAD differs from it, both read without the
    whitespace around them.  It raises only what the call of git
    raises. *)
Theorem update_reported_iff fs :
  let sha_file := posixpath.join configdir "latest_screenly_sha" in
  (is_up_to_date fs = Ok false <->
   exists content stdout,
     fs !! sha_file = Some content /\
     PyStr.strip (String.string_of_list_byte content) <> "" /\
     git_rev_parse_HEAD = Ok stdout /\
     PyStr.strip stdout <> PyStr.strip (String.string_of_list_byte content)) /\
  (forall e, is_up_to_date fs = Raise e -> git_rev_parse_HEAD = Raise e).
Proof.
  cbv zeta. unfold is_up_to_date, os.isfile.
  destruct (fs !! posixpath.join configdir "latest_screenly_sha")
    as [content|] eqn:Hc.
  - rewrite bool_decide_eq_true_2 by (eexists; reflexivity). cbn [negb].
    destruct (String.eqb_spec (PyStr.strip (String.string_of_list_byte content)) "")
      as [He|Hne]; cbn [negb].
    + split; [|discriminate]. split; [discriminate|].
      intros (c & s & Hc' & Hn & _). injection Hc' as <-. contradiction.
    + unfold bind. destruct git_rev_parse_HEAD as [stdout|e0].
      * split; [|discriminate]. split.
        -- intros H. injection H as H. apply String.eqb_neq in H.
           exists content, stdout. repeat split; assumption.
        -- intros (c & s & Hc' & _ & Hs & Hd). injection Hc' as <-.
           injection Hs as <-. f_equal. apply String.eqb_neq, Hd.
      * split.
        -- split; [discriminate|]. intros (c & s & _ & _ & Hs & _). discriminate Hs.
        -- intros e H. injection H as <-. reflexivity.
  - rewrite bool_decide_eq_false_2 by (intros [c Hs]; discriminate Hs). cbn [negb].
    split; [|discriminate]. split; [discriminate|].
    intros (c & s & Hc' & _). discriminate Hc'.
Qed.

(** *** [ResetWifiConfig.get] *)

(** X12. With a home directory set, the reset always answers 204, whether
    the flag file [.screenly/initialized] was there or not; afterwards the
    flag file does not exist, every other file is as it was, and a second
    reset changes nothing. *)
Theorem reset_wifi_removes_the_flag home fs :
  HOME = Some home ->
  let flag := posixpath.join home ".screenly/initialized" in
  let out := ResetWifiConfig_get fs in
  out.2 = Ok {| payload := Text ""; status := 204 |} /\
  out.1 !! flag = None /\
  (forall p, p <> flag -> out.1 !! p = fs !! p) /\
  ResetWifiConfig_get out.1 = out.
Proof.
  intros Hhome. cbv zeta. unfold ResetWifiConfig_get. rewrite Hhome.
  set (flag := posixpath.join home ".screenly/initialized").
  unfold os.isfile, os.remove. destruct (fs !! flag) as [c|] eqn:Hc.
  - rewrite bool_decide_eq_true_2 by (eexists; reflexivity). cbn [fst snd].
    rewrite lookup_delete_eq.
    rewrite bool_decide_eq_false_2 by (intros [x Hx]; discriminate Hx).
    repeat split. intros p Hp. apply lookup_delete_ne. congruence.
  - rewrite bool_decide_eq_false_2 by (intros [x Hx]; discriminate Hx).
    cbn [fst snd]. rewrite Hc.
    rewrite bool_decide_eq_false_2 by (intros [x Hx]; discriminate Hx).
    repeat split.
Qed.

(** *** [PlaylistOrder.post] *)

Lemma split_join sep (s : string) : PyStr.join (String sep "") (split sep s) = s.
Proof.
  induction s as [|c s IH]; [reflexivity|]. cbn [split].
  destruct (split_head sep s) as (w & ws & Hs & _). rewrite Hs in IH |- *.
  destruct (Ascii.eqb c sep) eqn:Hc.
  - apply Ascii.eqb_eq in Hc as ->.
    change (PyStr.join (String sep "") ("" :: w :: ws))
      with (String sep (PyStr.join (String sep "") (w :: ws))).
    rewrite IH. reflexivity.
  - destruct ws as [|w2 ws].
    + cbn [PyStr.join] in IH |- *. rewrite IH. reflexivity.
    + change (PyStr.join (String sep "") (String c w :: w2 :: ws))
        with (String c (PyStr.join (String sep "") (w :: w2 :: ws))).
      rewrite IH. reflexivity.
Qed.

Lemma split_without sep (s : string) :
  Forall (fun w => contains (String sep "") w = false) (split sep s).
Proof.
  induction s as [|c s IH]; [repeat constructor|]. cbn [split].
  destruct (Ascii.eqb_spec c sep) as [->|Hc].
  - constructor; [reflexivity|exact IH].
  - destruct (split sep s) as [|w ws]; [repeat constructor|].
    + rewrite contains_char_cons. cbn [contains startswith orb].
      rewrite orb_false_r. apply Ascii.eqb_neq. congruence.
    + inversion IH as [|? ? Hw Hws]; subst. constructor; [|exact Hws].
      rewrite contains_char_cons, Hw, orb_false_r. apply Ascii.eqb_neq. congruence.
Qed.

(** X13. The ids handed to [save_ordering] are the [ids] field cut at its
    commas: joined with commas they give the field back, none of them
    holds a comma, and there is always at least one; a request without
    the field, or with an empty one, orders the one id [''], not an empty
    list. *)
Theorem playlist_ids_rejoin form :
  PyStr.join "," (playlist_ids form) = default "" (form !! "ids") /\
  Forall (fun id => contains "," id = false) (playlist_ids form) /\
  playlist_ids form <> [] /\
  (default "" (form !! "ids") = "" ->
   forall db, PlaylistOrder_post form db = save_ordering [""] db).
Proof.
  unfold PlaylistOrder_post, playlist_ids.
  split; [apply split_join|]. split; [apply split_without|]. split.
  - destruct (split_head "," (default "" (form !! "ids"))) as (w & ws & -> & _).
    discriminate.
  - intros ->. reflexivity.
Qed.


(** *** [settings_page] *)

Lemma assign_setting_ok form c field d c' :
  assign_setting form c field d = inr c' ->
  exists v, c' = <[field := v]> c /\
    (field <> "password" ->
     v = match d with
         | VBool _ => VBool (PyStr.eq (from_option VStr d (form !! field)) (VStr "on"))
         | _ => from_option VStr d (form !! field)
         end).
Proof.
  unfold assign_setting. destruct (String.eqb_spec field "password") as [->|Hf].
  - match goal with
    | |- match ?x with _ => _ end = _ -> _ => destruct x as [r|v0]
    end; [discriminate|].
    intros H. injection H as <-. eexists. split; [reflexivity|].
    intros Hn. contradiction.
  - intros H. injection H as <-. eexists. split; [reflexivity|].
    intros _. reflexivity.
Qed.

Lemma assign_settings_frame form fields c key :
  key ∉ fields.*1 -> (assign_settings form fields c).1 !! key = c !! key.
Proof.
  revert c. induction fields as [|[field d] rest IH]; intros c Hk; [reflexivity|].
  cbn [assign_settings]. rewrite fmap_cons in Hk.
  apply not_elem_of_cons in Hk as [Hne Hk].
  destruct (assign_setting form c field d) as [r|c'] eqn:Ha; [reflexivity|].
  apply assign_setting_ok in Ha as (v & -> & _). rewrite (IH _ Hk).
  apply lookup_insert_ne. intros ->. apply Hne. reflexivity.
Qed.

Lemma assign_setting_mismatch form c d :
  PyStr.eq (from_option VStr d (form !! "password"))
           (VStr (from_option id "" (form !! "password2"))) = false ->
  assign_setting form c "password" d = inl PasswordsDoNotMatch.
Proof. intros H. unfold assign_setting. rewrite String.eqb_refl, H. reflexivity. Qed.

Lemma assign_settings_mismatch form fields c d :
  ("password", d) ∈ fields ->
  PyStr.eq (from_option VStr d (form !! "password"))
           (VStr (from_option id "" (form !! "password2"))) = false ->
  (assign_settings form fields c).2 <> None.
Proof.
  intros Hin Hd. revert c.
  induction fields as [|[field d'] rest IH]; intros c; [inversion Hin|].
  cbn [assign_settings]. apply elem_of_cons in Hin as [Heq|Hin].
  - injection Heq as <- <-. rewrite (assign_setting_mismatch _ _ _ Hd). discriminate.
  - destruct (assign_setting form c field d'); [discriminate|]. apply (IH Hin).
Qed.

Lemma checkbox_on (form : gmap string string) field b :
  PyStr.eq (from_option VStr (VBool b) (form !! field)) (VStr "on")
  = bool_decide (form !! field = Some "on").
Proof.
  destruct (form !! field) as [s|]; cbn [from_option PyStr.eq].
  - destruct (String.eqb_spec s "on") as [->|Hs]; symmetry.
    + apply bool_decide_eq_true_2. reflexivity.
    + apply bool_decide_eq_false_2. congruence.
  - symmetry. apply bool_decide_eq_false_2. discriminate.
Qed.

Lemma assign_settings_checkbox form fields c field b c' :
  NoDup fields.*1 -> (field, VBool b) ∈ fields -> field <> "password" ->
  assign_settings form fields c = (c', None) ->
  c' !! field = Some (VBool (bool_decide (form !! field = Some "on"))).
Proof.
  intros Hnd Hin Hf. revert c.
  induction fields as [|[field' d'] rest IH]; intros c; [inversion Hin|].
  rewrite fmap_cons in Hnd. apply NoDup_cons in Hnd as [Hfresh Hnd].
  cbn [assign_settings].
  destruct (assign_setting form c field' d') as [r|c1] eqn:Ha; [discriminate|].
  apply elem_of_cons in Hin as [Heq|Hin].
  - injection Heq as <- <-. apply assign_setting_ok in Ha as (v & -> & Hv).
    rewrite (Hv Hf), checkbox_on. intros H.
    pose proof (assign_settings_frame form rest
                  (<[field := VBool (bool_decide (form !! field = Some "on"))]> c)
                  field Hfresh) as Hfr.
    rewrite H in Hfr. cbn [fst] in Hfr. rewrite Hfr. apply lookup_insert_eq.
  - apply (IH Hnd Hin).
Qed.

Lemma show_settings_frame fields c context context' key :
  key ∉ fields.*1 -> show_settings fields c context = inr context' ->
  context' !! key = context !! key.
Proof.
  revert context. induction fields as [|[field d] rest IH]; intros context Hk.
  - intros H. injection H as <-. reflexivity.
  - rewrite fmap_cons in Hk. apply not_elem_of_cons in Hk as [Hne Hk].
    cbn [show_settings]. destruct (lookup_key c field) as [r|v]; [discriminate|].
    intros H. rewrite (IH _ Hk H). apply lookup_insert_ne.
    intros ->. apply Hne. reflexivity.
Qed.

Lemma settings_context_flash c context context' :
  "flash" ∉ viewer_defaults.*1 -> settings_context c context = inr context' ->
  context' !! "flash" = context !! "flash".
Proof.
  intros Hk. unfold settings_context.
  destruct (show_settings viewer_defaults c context) as [r|context1] eqn:Hs;
    [discriminate|].
  apply (show_settings_frame _ _ _ _ _ Hk) in Hs.
  destruct (lookup_key c "user") as [r|user]; [discriminate|].
  destruct (negb (truthy user)).
  - intros H. injection H as <-.
    rewrite !lookup_insert_ne by discriminate. exact Hs.
  - destruct (lookup_key c "password") as [r|password]; [discriminate|].
    intros H. injection H as <-.
    rewrite !lookup_insert_ne by discriminate. exact Hs.
Qed.

(** What a POST leaves behind: the settings in memory are those of the
    loop, and the site was either left alone or saved and told to
    reload. *)
Lemma settings_post_site listening form w :
  let loop := assign_settings form CONFIGURABLE_SETTINGS (conf w) in
  let out := settings_page listening (POST form) w in
  conf out.1 = loop.1 /\
  ((written out.1 = written w /\ zmq out.1 = zmq w /\ inbox out.1 = inbox w /\
    forall context, out.2 = inr context ->
      exists r, caught r = true /\
        out.2 = settings_context loop.1
                  (<["flash" := Flash (FlashError r)]> {[ "flash" := Flash NoFlash ]})) \/
   (loop.2 = None /\ settings_save loop.1 = Ok tt /\
    written out.1 = written w ++ [loop.1] /\
    (zmq out.1, inbox out.1)
    = ZmqPublisher.send_to_viewer listening (ZmqPublisher.get_instance (zmq w)).2
        "reload" (ZmqPublisher.get_instance (zmq w)).1 (inbox w) /\
    out.2 = settings_context loop.1
              (<["flash" := Flash (FlashSuccess MSG_SAVED)]>
                 {[ "flash" := Flash NoFlash ]}))).
Proof.
  cbv zeta. unfold settings_page.
  destruct (assign_settings form CONFIGURABLE_SETTINGS (conf w)) as [c [r|]].
  - destruct (caught r) eqn:Hr; cbn [fst snd conf written zmq inbox];
      (split; [reflexivity|left; repeat split]).
    + intros context _. exists r. split; [exact Hr|reflexivity].
    + intros context H. discriminate H.
  - destruct (settings_save c) as [[]|e] eqn:Hs.
    + destruct (ZmqPublisher.get_instance (zmq w)) as [st publisher].
      cbn [fst snd conf written zmq inbox]. split; [reflexivity|right].
      split; [reflexivity|]. split; [exact Hs|]. split; [reflexivity|].
      split; [|reflexivity].
      destruct (ZmqPublisher.send_to_viewer listening publisher "reload" st (inbox w));
        reflexivity.
    + destruct (caught (Raised e)) eqn:Hr; cbn [fst snd conf written zmq inbox];
        (split; [reflexivity|left; repeat split]).
      * intros context _. exists (Raised e). split; [exact Hr|reflexivity].
      * intros context H. discriminate H.
Qed.

(** X14. A settings request saves and reloads together or does neither:
    either nothing is written, the publisher is as it was and the viewer
    hears nothing, or the settings in memory are written once, the one
    command 'reload' is handed to the publisher, and the viewer hears it
    if it listens.  A GET does neither. *)
Theorem settings_saved_and_reloaded_together listening req w :
  let out := settings_page listening req w in
  (written out.1 = written w /\ zmq out.1 = zmq w /\ inbox out.1 = inbox w) \/
  (req <> GET /\
   settings_save (conf out.1) = Ok tt /\
   written out.1 = written w ++ [conf out.1] /\
   ZmqPublisher.sent (ZmqPublisher.get_instance (zmq out.1)).2
   = ZmqPublisher.sent (ZmqPublisher.get_instance (zmq w)).2 ++ ["reload"] /\
   inbox out.1 = if listening then inbox w ++ ["reload"] else inbox w).
Proof.
  cbv zeta. destruct req as [|form].
  - left. unfold settings_page. destruct (settings_load (conf w)); repeat split.
  - pose proof (settings_post_site listening form w) as H. cbv zeta in H.
    set (out := settings_page listening (POST form) w) in *.
    destruct H as [Hc [(Hw & Hz & Hi & _)|(_ & Hs & Hw & Hz & _)]].
    + left. repeat split; assumption.
    + right. rewrite Hc. split; [discriminate|]. split; [exact Hs|].
      split; [exact Hw|]. unfold ZmqPublisher.send_to_viewer in Hz.
      injection Hz as Hz Hi. rewrite Hz, Hi. split; reflexivity.
Qed.

(** X15. The page tells the truth about the save: when no setting of the
    viewer is called [flash], a page rendered for a POST carries the
    success message exactly when the settings were written and the reload
    was sent, and otherwise carries the caught exception while nothing
    was written or sent. *)
Theorem flash_tells_whether_saved listening form w context :
  "flash" ∉ viewer_defaults.*1 ->
  let out := settings_page listening (POST form) w in
  out.2 = inr context ->
  (context !! "flash" = Some (Flash (FlashSuccess MSG_SAVED)) /\
   written out.1 = written w ++ [conf out.1] /\
   inbox out.1 = if listening then inbox w ++ ["reload"] else inbox w) \/
  (exists r, context !! "flash" = Some (Flash (FlashError r)) /\ caught r = true /\
             written out.1 = written w /\ zmq out.1 = zmq w /\
             inbox out.1 = inbox w).
Proof.
  intros Hk. cbv zeta. intros Hout.
  pose proof (settings_post_site listening form w) as H. cbv zeta in H.
  set (out := settings_page listening (POST form) w) in *.
  destruct H as [Hc [(Hw & Hz & Hi & Hr)|(_ & _ & Hw & Hz & Hr)]].
  - right. destruct (Hr _ Hout) as (r & Hcaught & Hctx). exists r.
    rewrite Hout in Hctx. symmetry in Hctx.
    apply (settings_context_flash _ _ _ Hk) in Hctx.
    rewrite Hctx, lookup_insert_eq. repeat split; assumption.
  - left. rewrite Hout in Hr. symmetry in Hr.
    apply (settings_context_flash _ _ _ Hk) in Hr.
    rewrite Hr, lookup_insert_eq, Hc. split; [reflexivity|]. split; [exact Hw|].
    unfold ZmqPublisher.send_to_viewer in Hz. injection Hz as _ Hi. exact Hi.
Qed.

(** X16. When the two passwords of the form differ, nothing is saved and
    the viewer is not told to reload, whatever else the form holds. *)
Theorem mismatched_passwords_save_nothing listening form w d :
  ("password", d) ∈ CONFIGURABLE_SETTINGS ->
  PyStr.eq (from_option VStr d (form !! "password"))
           (VStr (from_option id "" (form !! "password2"))) = false ->
  let out := settings_page listening (POST form) w in
  written out.1 = written w /\ zmq out.1 = zmq w /\ inbox out.1 = inbox w.
Proof.
  intros Hin Hd. cbv zeta.
  destruct (settings_post_site listening form w)
    as [_ [(Hw & Hz & Hi & _)|(Hloop & _)]].
  - repeat split; assumption.
  - exfalso. exact (assign_settings_mismatch _ _ _ _ Hin Hd Hloop).
Qed.

(** X17. A POST changes no setting outside [CONFIGURABLE_SETTINGS]:
    whatever the form holds and however the request ends, a key that is
    not one of the configurable fields keeps its value in memory. *)
Theorem post_keeps_other_settings listening form w key :
  key ∉ CONFIGURABLE_SETTINGS.*1 ->
  conf (settings_page listening (POST form) w).1 !! key = conf w !! key.
Proof.
  intros Hk. destruct (settings_post_site listening form w) as [-> _].
  apply assign_settings_frame, Hk.
Qed.

(** X18. A boolean setting is saved as a checkbox: when the fields have
    distinct names, whatever is written for a field whose default is a
    boolean (the password apart) is True if the form holds 'on' for it
    and False otherwise, also when the form does not hold the field. *)
Theorem boolean_setting_saved_as_checkbox listening form w field b saved :
  NoDup CONFIGURABLE_SETTINGS.*1 ->
  (field, VBool b) ∈ CONFIGURABLE_SETTINGS -> field <> "password" ->
  written (settings_page listening (POST form) w).1 = written w ++ [saved] ->
  saved !! field = Some (VBool (bool_decide (form !! field = Some "on"))).
Proof.
  intros Hnd Hin Hf Hsaved.
  destruct (settings_post_site listening form w)
    as [_ [(Hw & _)|(Hloop & _ & Hw & _)]]; rewrite Hw in Hsaved.
  - apply (f_equal length) in Hsaved. rewrite List.length_app in Hsaved.
    cbn [length] in Hsaved. lia.
  - apply app_inv_head in Hsaved. injection Hsaved as <-.
    apply (assign_settings_checkbox form CONFIGURABLE_SETTINGS (conf w) field b);
      try assumption.
    destruct (assign_settings form CONFIGURABLE_SETTINGS (conf w)) as [c o].
    cbn [snd] in Hloop. subst o. reflexivity.
Qed.


(** *** [Assets.post] and [Asset.delete] together *)




End Server.

(** ** The handlers on the sample installation *)

Local Abbreviation sample_prepare :=
  (prepare_asset Sample.assetdir Sample.validate_url
     Sample.download_video_from_youtube Sample.get_video_duration Sample.date_parse).
Local Abbreviation sample_create :=
  (Assets_post Sample.assetdir Sample.validate_url Sample.url_fails
     Sample.download_video_from_youtube Sample.get_video_duration Sample.date_parse).
Local Abbreviation sample_upload :=
  (FileAsset_post Sample.assetdir Sample.max_offset).
Local Abbreviation sample_recover :=
  (Recover_post mimetypes.guess_type Sample.backup_recover).

(** The whole seconds of some probes: below 2**34 seconds the second is
    rounded down, from there on the float may reach the next one; a
    negative length is cut toward zero. *)
Example whole_seconds_of_probes :
  whole_seconds 999999 = 0 /\ whole_seconds 1000000 = 1 /\
  whole_seconds 12500000 = 12 /\
  whole_seconds 17179869183999999 = 17179869183 /\
  whole_seconds 17179869184999999 = 17179869185 /\
  whole_seconds 86399999999999999999 = 86400000000000 /\
  whole_seconds (-1) = 0 /\ whole_seconds (-1500000) = -1.
Proof. repeat split; vm_compute; reflexivity. Qed.

Example website_prepared :
  sample_prepare Sample.uuid4 Sample.website ∅ = (∅, Ok Sample.website_asset).
Proof. vm_compute. reflexivity. Qed.

Example clip_prepared :
  sample_prepare Sample.uuid4 (Sample.video (Some (VStr "N/A"))) Sample.disk
  = (Sample.disk_after, Ok Sample.clip_asset).
Proof. vm_compute. reflexivity. Qed.

(** A relative path is no file path for the validation: it is refused as
    a URL even though the file is there. *)
Example relative_path_is_a_url :
  sample_prepare Sample.uuid4
    {[ "name" := VStr "Clip"; "mimetype" := VStr "video";
       "uri" := VStr "media/clip.mp4"; "duration" := VStr "N/A" ]}
    {[ "media/clip.mp4" := Sample.clip ]}
  = ({[ "media/clip.mp4" := Sample.clip ]}, Raise (Exception MSG_URL)).
Proof. vm_compute. reflexivity. Qed.

(** In append mode a chunk sent again for an offset inside the file does
    not overwrite: it lands at the end. *)
Example resent_chunk_is_appended :
  (sample_upload {| file_upload := Some Sample.chunk_a;
                    content_range := Some "bytes 0-1/4" |}
     {[ Sample.tmp_path := String.list_byte_of_string "ab" ]}).1 !! Sample.tmp_path
  = Some (String.list_byte_of_string "abab").
Proof. vm_compute. reflexivity. Qed.

(** Deleting the asset of a managed file removes the file; deleting one
    whose file is already gone succeeds all the same; an asset with a
    remote uri leaves the files alone. *)
Example delete_managed :
  Asset_delete Sample.assetdir "793406aa1fd34b85aa82614004c0e63a"
    (Sample.disk_after, [Sample.clip_asset; Sample.sibling_asset])
  = ((∅, [Sample.sibling_asset]), Ok {| payload := Text ""; status := 204 |}).
Proof. vm_compute. reflexivity. Qed.

Example delete_remote :
  Asset_delete Sample.assetdir "793406aa1fd34b85aa82614004c0e63a"
    (Sample.disk, [Sample.website_asset])
  = ((Sample.disk, []), Ok {| payload := Text ""; status := 204 |}).
Proof. vm_compute. reflexivity. Qed.

Example delete_file_gone :
  Asset_delete Sample.assetdir "793406aa1fd34b85aa82614004c0e63a"
    (Sample.disk, [Sample.clip_asset; Sample.sibling_asset])
  = ((Sample.disk, [Sample.sibling_asset]), Ok {| payload := Text ""; status := 204 |}).
Proof. vm_compute. reflexivity. Qed.

(** *** Witnesses *)

Lemma dates_parsed_without_timezone_witness :
  date_stored Sample.date_parse (get Sample.website "start_date")
    (start_date Sample.website_asset) /\
  date_stored Sample.date_parse (get Sample.website "end_date")
    (end_date Sample.website_asset) /\
  (Sample.website !! "start_date" = None -> start_date Sample.website_asset = NoBound) /\
  (Sample.website !! "end_date" = None -> end_date Sample.website_asset = NoBound).
Proof.
  apply (dates_parsed_without_timezone Sample.assetdir Sample.validate_url
           Sample.download_video_from_youtube Sample.get_video_duration
           Sample.date_parse Sample.uuid4 Sample.website ∅ ∅ Sample.website_asset).
  vm_compute. reflexivity.
Defined.

Lemma uri_is_path_iff_leading_slash_witness :
  sample_prepare Sample.uuid4 (Sample.video (Some (VStr "N/A"))) Sample.disk
  = if startswith "/tmp/clip.mp4" "/" then
      if os.isfile Sample.disk "/tmp/clip.mp4"
      then build_asset Sample.assetdir Sample.download_video_from_youtube
             Sample.get_video_duration Sample.date_parse Sample.uuid4
             (Sample.video (Some (VStr "N/A"))) "/tmp/clip.mp4" Sample.disk
      else (Sample.disk, Raise (Exception MSG_PATH))
    else
      if Sample.validate_url "/tmp/clip.mp4"
      then build_asset Sample.assetdir Sample.download_video_from_youtube
             Sample.get_video_duration Sample.date_parse Sample.uuid4
             (Sample.video (Some (VStr "N/A"))) "/tmp/clip.mp4" Sample.disk
      else (Sample.disk, Raise (Exception MSG_URL)).
Proof.
  apply (uri_is_path_iff_leading_slash Sample.assetdir Sample.validate_url
           Sample.download_video_from_youtube Sample.get_video_duration
           Sample.date_parse Sample.uuid4 (Sample.video (Some (VStr "N/A")))
           "/tmp/clip.mp4" Sample.disk).
  - vm_compute. reflexivity.
  - vm_compute. reflexivity.
Defined.


Lemma video_duration_probed_witness :
  exists us,
    Sample.get_video_duration Sample.disk_after (uri Sample.clip_asset) = Ok us /\
    duration Sample.clip_asset = Some (whole_seconds us) /\
    (0 <= us < 2 ^ 34 * 1000000 -> whole_seconds us = us / 1000000).
Proof.
  apply (video_duration_probed Sample.assetdir Sample.validate_url
           Sample.download_video_from_youtube Sample.get_video_duration
           Sample.date_parse Sample.uuid4 (Sample.video (Some (VStr "N/A")))
           Sample.disk Sample.disk_after Sample.clip_asset "video").
  - vm_compute. reflexivity.
  - vm_compute. reflexivity.
  - left. vm_compute. reflexivity.
  - vm_compute. reflexivity.
Defined.


Lemma chunked_upload_in_order_witness :
  let first :=
    sample_upload {| file_upload := Some Sample.chunk_a; content_range := None |} ∅ in
  let second :=
    sample_upload {| file_upload := Some Sample.chunk_b;
                     content_range := Some Sample.range_b |} first.1 in
  posixpath.inside Sample.assetdir
    (posixpath.join Sample.assetdir (filename Sample.chunk_a) +:+ ".tmp") = true /\
  second.2 = Ok (posixpath.join Sample.assetdir (filename Sample.chunk_a) +:+ ".tmp") /\
  second.1 !! (posixpath.join Sample.assetdir (filename Sample.chunk_a) +:+ ".tmp")
  = Some (stream Sample.chunk_a ++ stream Sample.chunk_b).
Proof.
  split.
  - apply (chunked_upload_in_order Sample.assetdir Sample.max_offset
             Sample.chunk_a ∅).
    vm_compute. reflexivity.
  - apply (chunked_upload_in_order Sample.assetdir Sample.max_offset
             Sample.chunk_a ∅).
    + reflexivity.
    + vm_compute. reflexivity.
    + vm_compute. reflexivity.
Defined.

Lemma recover_rejects_other_file_names_witness :
  sample_recover (Some Sample.zip_upload) (Sample.disk, [Sample.website_asset])
  = ((Sample.disk, [Sample.website_asset]), Raise (Exception MSG_EXTENSION)) /\
  status (api_response
            (sample_recover (Some Sample.zip_upload)
               (Sample.disk, [Sample.website_asset])).2) = 500.
Proof.
  apply (recover_rejects_other_file_names mimetypes.guess_type
           Sample.backup_recover Sample.zip_upload
           (Sample.disk, [Sample.website_asset])).
  vm_compute. discriminate.
Defined.

(** *** Where the code departs from the specification *)

(** Chunks in the other order: B, sent first with its offset, creates the
    file; A, sent without the header, then replaces it.  A chunk declared
    for an offset inside the file lands at its end.  And an upload whose
    file name is an absolute path, or climbs through [..], is written
    outside the asset directory. *)
Lemma chunks_out_of_order_counterexample :
  let late_b :=
    sample_upload {| file_upload := Some Sample.chunk_b;
                     content_range := Some Sample.range_b |} ∅ in
  let then_a :=
    sample_upload {| file_upload := Some Sample.chunk_a; content_range := None |}
      late_b.1 in
  let within :=
    sample_upload {| file_upload := Some Sample.chunk_b;
                     content_range := Some "bytes 0-1/4" |}
      {[ Sample.tmp_path := stream Sample.chunk_a ]} in
  let elsewhere :=
    sample_upload {| file_upload := Some Sample.absolute_name;
                     content_range := None |} ∅ in
  let climbing :=
    sample_upload {| file_upload := Some Sample.climbing_name;
                     content_range := None |} ∅ in
  (start_bytes Sample.range_b = Ok (Z.of_nat (length (stream Sample.chunk_a))) /\
   then_a.1 !! Sample.tmp_path = Some (stream Sample.chunk_a) /\
   stream Sample.chunk_a <> stream Sample.chunk_a ++ stream Sample.chunk_b) /\
  (start_bytes "bytes 0-1/4" = Ok 0 /\
   within.1 !! Sample.tmp_path = Some (stream Sample.chunk_a ++ stream Sample.chunk_b) /\
   take 2 (stream Sample.chunk_a ++ stream Sample.chunk_b) <> stream Sample.chunk_b) /\
  (elsewhere = ({[ "/tmp/clip.mp4.tmp" := stream Sample.absolute_name ]},
                Ok "/tmp/clip.mp4.tmp") /\
   posixpath.inside Sample.assetdir "/tmp/clip.mp4.tmp" = false) /\
  (climbing.2 = Ok "/home/pi/screenly_assets/../../../etc/cron.d/evil.tmp" /\
   posixpath.resolve "/home/pi/screenly_assets/../../../etc/cron.d/evil.tmp"
   = (true, ["etc"; "cron.d"; "evil.tmp"]) /\
   posixpath.inside Sample.assetdir
     "/home/pi/screenly_assets/../../../etc/cron.d/evil.tmp" = false).
Proof.
  cbv zeta. repeat split; try (vm_compute; reflexivity); vm_compute; discriminate.
Qed.

(** C3. The failing input of the claim.  A file in a directory whose
    name merely begins like the asset directory's is not under it; create
    accepts it where it is, and deleting its asset removes it, as it
    does for a uri that begins with the directory's path and climbs out
    of it.  A file under the directory whose uri spells the path with a
    doubled slash is left in place. *)
Theorem delete_removes_file_beside_directory :
  (posixpath.inside Sample.assetdir Sample.sibling = false /\
   sample_create Sample.uuid4 Sample.sibling_request
     ({[ Sample.sibling := Sample.clip ]}, [])
   = (({[ Sample.sibling := Sample.clip ]}, [Sample.sibling_asset]),
      Ok {| payload := Json Sample.sibling_asset; status := 201 |}) /\
   Asset_delete Sample.assetdir "1c5cfa719d1f4a9abae16c983a18903b"
     ({[ Sample.sibling := Sample.clip ]}, [Sample.sibling_asset])
   = ((∅, []), Ok {| payload := Text ""; status := 204 |})) /\
  (posixpath.inside Sample.assetdir Sample.climbing = false /\
   Asset_delete Sample.assetdir "1c5cfa719d1f4a9abae16c983a18903b"
     ({[ Sample.climbing := Sample.clip ]}, [Sample.picture_at Sample.climbing])
   = ((∅, []), Ok {| payload := Text ""; status := 204 |})) /\
  (posixpath.inside Sample.assetdir Sample.doubled_slash = true /\
   Asset_delete Sample.assetdir "1c5cfa719d1f4a9abae16c983a18903b"
     ({[ Sample.doubled_slash := Sample.clip ]},
      [Sample.picture_at Sample.doubled_slash])
   = (({[ Sample.doubled_slash := Sample.clip ]}, []),
      Ok {| payload := Text ""; status := 204 |})).
Proof. repeat split; vm_compute; reflexivity. Qed.

(** A file named as a tar archive passes the check whatever content type
    the client declares for it: it is written under [static/] and handed to
    the extraction. *)
Lemma recover_accepts_tar_named_text_counterexample :
  content_type Sample.text_named_tar = "text/plain" /\
  mimetypes.guess_type (filename Sample.text_named_tar) = Some "application/x-tar" /\
  sample_recover (Some Sample.text_named_tar) (∅, [])
  = (({[ "static/backup.tar" := stream Sample.text_named_tar ]}, []), Raise IOError).
Proof. repeat split; vm_compute; reflexivity. Qed.

(** A video request without a duration fails on [int('')]; one with a
    negative duration is not probed; one with a positive duration leaves
    the record without the caller's value.  The probe would have read 12
    seconds in each case.  A probe of 2**35 seconds less a microsecond
    is rounded up by the float, and a negative one is cut toward
    zero. *)
Lemma video_duration_counterexample :
  (sample_prepare Sample.uuid4 (Sample.video None) Sample.disk).2
    = Raise ValueError /\
  (sample_prepare Sample.uuid4 (Sample.video (Some (VStr "-5"))) Sample.disk).2
    = Ok Sample.clip_asset_unset /\
  (sample_prepare Sample.uuid4 (Sample.video (Some (VStr "30"))) Sample.disk).2
    = Ok Sample.clip_asset_unset /\
  duration Sample.clip_asset_unset = None /\
  Sample.get_video_duration Sample.disk_after Sample.managed = Ok 12500000 /\
  whole_seconds 34359738368999999 = 34359738369 /\
  34359738368999999 / 1000000 = 34359738368 /\
  whole_seconds (-1500000) = -1 /\ -1500000 / 1000000 = -2.
Proof. repeat split; vm_compute; reflexivity. Qed.



(** *** Witnesses of the further properties *)

Local Abbreviation sample_delete := (Asset_delete Sample.assetdir).
Local Abbreviation sample_settings_page :=
  (settings_page Sample.CONFIGURABLE_SETTINGS Sample.viewer_defaults
     Sample.settings_save Sample.settings_load).
Local Abbreviation sample_player :=
  {| conf := Sample.settings; written := []; zmq := Sample.publisher;
     inbox := [] |}.

Lemma stored_text_is_stripped_witness :
  Py.strip (mimetype Sample.website_asset) = mimetype Sample.website_asset /\
  (forall s, name Sample.website_asset = VStr s -> Py.strip s = s) /\
  (forall uri0, get Sample.website "uri" = VStr uri0 ->
     truthy (get Sample.website "asset_id") = true \/ startswith uri0 "/" = false ->
     uri Sample.website_asset = uri0 /\
     Py.strip (uri Sample.website_asset) = uri Sample.website_asset).
Proof.
  apply (stored_text_is_stripped Sample.assetdir Sample.validate_url
           Sample.download_video_from_youtube Sample.get_video_duration
           Sample.date_parse Sample.uuid4 Sample.website ∅ ∅ Sample.website_asset).
  - vm_compute. reflexivity.
  - vm_compute. reflexivity.
Defined.

Lemma failed_create_leaves_file_moved_witness :
  sample_create Sample.uuid4 Sample.picture (Sample.disk, [])
  = ((<[posixpath.join Sample.assetdir (uuid.hex Sample.uuid4) := Sample.clip]>
        (delete "/tmp/clip.mp4" Sample.disk), []),
     Raise ValueError).
Proof.
  apply (failed_create_leaves_file_moved Sample.assetdir Sample.validate_url
           Sample.url_fails Sample.download_video_from_youtube
           Sample.get_video_duration Sample.date_parse Sample.uuid4
           Sample.picture Sample.disk [] "/tmp/clip.mp4" Sample.clip "image"
           ValueError); vm_compute; reflexivity.
Defined.

Lemma supplied_id_moves_nothing_witness :
  (sample_prepare Sample.uuid4 Sample.sibling_request
     {[ Sample.sibling := Sample.clip ]}).1 = {[ Sample.sibling := Sample.clip ]} /\
  forall fs' a,
    sample_prepare Sample.uuid4 Sample.sibling_request
      {[ Sample.sibling := Sample.clip ]} = (fs', Ok a) ->
    asset_id a = get Sample.sibling_request "asset_id" /\
    (plain_media Sample.sibling_request = true ->
     get Sample.sibling_request "uri" = VStr (uri a)).
Proof.
  apply (supplied_id_moves_nothing Sample.assetdir Sample.validate_url
           Sample.download_video_from_youtube Sample.get_video_duration
           Sample.date_parse Sample.uuid4 Sample.sibling_request
           {[ Sample.sibling := Sample.clip ]}).
  vm_compute. reflexivity.
Defined.

Lemma other_media_store_the_duration_given_witness :
  exists n, int (get Sample.website "duration") = Ok n /\
            duration Sample.website_asset = Some n.
Proof.
  apply (other_media_store_the_duration_given Sample.assetdir Sample.validate_url
           Sample.download_video_from_youtube Sample.get_video_duration
           Sample.date_parse Sample.uuid4 Sample.website ∅ ∅ Sample.website_asset
           "webpage"); vm_compute; reflexivity.
Defined.

Lemma video_with_duration_sets_none_witness :
  duration Sample.clip_asset_unset = None.
Proof.
  apply (video_with_duration_sets_none Sample.assetdir Sample.validate_url
           Sample.download_video_from_youtube Sample.get_video_duration
           Sample.date_parse Sample.uuid4 (Sample.video (Some (VStr "30")))
           Sample.disk Sample.disk_after Sample.clip_asset_unset "video" 30).
  - vm_compute. reflexivity.
  - vm_compute. reflexivity.
  - vm_compute. reflexivity.
  - vm_compute. reflexivity.
  - lia.
  - vm_compute. reflexivity.
Defined.

Lemma youtube_record_is_the_downloaders_witness :
  mimetype Sample.youtube_record = "video" /\
  is_processing Sample.youtube_record = VInt 1 /\
  exists uri0 d,
    get Sample.youtube "uri" = VStr uri0 /\
    Sample.tube (stored_uri Sample.assetdir Sample.uuid4 Sample.youtube uri0)
      (asset_id Sample.youtube_record)
    = Ok (uri Sample.youtube_record, name Sample.youtube_record, d) /\
    ((eq_str (get Sample.youtube "duration") "N/A" = true \/
      int (get Sample.youtube "duration") = Ok 0) /\
     (exists us,
        Sample.get_video_duration ∅ (uri Sample.youtube_record) = Ok us /\
        duration Sample.youtube_record = Some (whole_seconds us))
     \/
     (exists n, eq_str (get Sample.youtube "duration") "N/A" = false /\
                int (get Sample.youtube "duration") = Ok n /\ n <> 0 /\
                duration Sample.youtube_record = Some d)).
Proof.
  apply (youtube_record_is_the_downloaders Sample.assetdir Sample.validate_url
           Sample.tube Sample.get_video_duration Sample.date_parse Sample.uuid4
           Sample.youtube ∅ ∅ Sample.youtube_record "youtube_asset");
    vm_compute; reflexivity.
Defined.

Lemma content_range_start_read_back_witness :
  start_bytes ("bytes " +:+ PyStr.decimal 2 +:+ "-" +:+ "3/4") = Ok 2.
Proof. apply (content_range_start_read_back 2 "3/4"). lia. Defined.

Lemma reset_wifi_removes_the_flag_witness :
  let flag := posixpath.join "/home/pi" ".screenly/initialized" in
  let out := ResetWifiConfig_get Sample.HOME Sample.initialized in
  out.2 = Ok {| payload := Text ""; status := 204 |} /\
  out.1 !! flag = None /\
  (forall p, p <> flag -> out.1 !! p = Sample.initialized !! p) /\
  ResetWifiConfig_get Sample.HOME out.1 = out.
Proof.
  apply (reset_wifi_removes_the_flag Sample.HOME "/home/pi" Sample.initialized).
  reflexivity.
Defined.

Lemma flash_tells_whether_saved_witness :
  let out := sample_settings_page true (POST Sample.form) sample_player in
  let context := match out.2 with inr context => context | inl _ => ∅ end in
  (context !! "flash" = Some (Flash (FlashSuccess MSG_SAVED)) /\
   written out.1 = written sample_player ++ [conf out.1] /\
   inbox out.1 = inbox sample_player ++ ["reload"]) \/
  (exists r, context !! "flash" = Some (Flash (FlashError r)) /\ caught r = true /\
             written out.1 = written sample_player /\
             zmq out.1 = zmq sample_player /\ inbox out.1 = inbox sample_player).
Proof.
  apply (flash_tells_whether_saved Sample.CONFIGURABLE_SETTINGS
           Sample.viewer_defaults Sample.settings_save Sample.settings_load
           true Sample.form sample_player).
  - refine (bool_decide_unpack _ _). vm_compute. exact I.
  - vm_compute. reflexivity.
Defined.

Lemma mismatched_passwords_save_nothing_witness :
  let out := sample_settings_page true (POST Sample.form_mismatch) sample_player in
  written out.1 = written sample_player /\ zmq out.1 = zmq sample_player /\
  inbox out.1 = inbox sample_player.
Proof.
  apply (mismatched_passwords_save_nothing Sample.CONFIGURABLE_SETTINGS
           Sample.viewer_defaults Sample.settings_save Sample.settings_load
           true Sample.form_mismatch sample_player (VStr "")).
  - refine (bool_decide_unpack _ _). vm_compute. exact I.
  - vm_compute. reflexivity.
Defined.

Lemma post_keeps_other_settings_witness :
  conf (sample_settings_page true (POST Sample.form) sample_player).1 !! "assetdir"
  = conf sample_player !! "assetdir".
Proof.
  apply (post_keeps_other_settings Sample.CONFIGURABLE_SETTINGS
           Sample.viewer_defaults Sample.settings_save Sample.settings_load
           true Sample.form sample_player "assetdir").
  refine (bool_decide_unpack _ _). vm_compute. exact I.
Defined.

Lemma boolean_setting_saved_as_checkbox_witness :
  Sample.saved_settings !! "show_splash"
  = Some (VBool (bool_decide (Sample.form !! "show_splash" = Some "on"))).
Proof.
  apply (boolean_setting_saved_as_checkbox Sample.CONFIGURABLE_SETTINGS
           Sample.viewer_defaults Sample.settings_save Sample.settings_load
           true Sample.form sample_player "show_splash" true Sample.saved_settings).
  - refine (bool_decide_unpack _ _). vm_compute. exact I.
  - refine (bool_decide_unpack _ _). vm_compute. exact I.
  - discriminate.
  - vm_compute. reflexivity.
Defined.

